(** * bedrock-forge: the example Lambda handlers, embedded and verified

    A shallow embedding of the four Python handlers shipped with the
    repository:

    - [summary_generator.py]  (function-call envelope, text summaries),
    - [text_processor.py]     (function-call envelope, S3 documents),
    - [order-lookup/app.py]   (flat HTTP-style envelope, mock order table),
    - [product-search-api/app.py] (FastAPI search over a mock catalog).

    Python values are modelled as they are at run time: a [str] is a list
    of Unicode code points, an [int] is a [Z], a JSON document is a value
    of [pyval], a raised exception is the [Raise] branch of [result].
    The [logger] calls are left out: they return nothing the handlers
    read, and what they format ([json.dumps] of the decoded event, [str]
    of an exception, a dictionary) cannot raise. *)

From Stdlib Require Import ZArith NArith QArith Qcanon Floats Ascii String Lia.
From Stdlib Require Import DecimalString.
From Stdlib.Strings Require Import Byte.
From stdpp Require Import base option list countable gmap.

Set Warnings "-register-all,-inexact-float".
Local Open Scope Z_scope.

(** ** Python strings *)

(** A Python [str] is a sequence of code points; [len] counts code points. *)
Abbreviation str := (list N).

(** An ASCII literal of the source, as a [str]. *)
Definition py (s : string) : str :=
  (fun a => N_of_ascii a) <$> list_ascii_of_string s.

Definition len {A} (l : list A) : Z := Z.of_nat (length l).

(** [l[:n]]: a negative stop counts from the end and is clipped at 0. *)
Definition slice_to {A} (n : Z) (l : list A) : list A :=
  if 0 <=? n then take (Z.to_nat n) l else take (Z.to_nat (len l + n)) l.

(** [l[n:]]: a negative start counts from the end and is clipped at 0. *)
Definition slice_from {A} (n : Z) (l : list A) : list A :=
  if 0 <=? n then drop (Z.to_nat n) l else drop (Z.to_nat (len l + n)) l.

(** [str.isspace] on one code point: the code points CPython's
    [_PyUnicode_IsWhitespace] accepts. *)
Definition isspace (c : N) : bool :=
  (((9 <=? c) && (c <=? 13)) || ((28 <=? c) && (c <=? 32))
   || (c =? 133) || (c =? 160) || (c =? 5760)
   || ((8192 <=? c) && (c <=? 8202))
   || (c =? 8232) || (c =? 8233) || (c =? 8239) || (c =? 8287)
   || (c =? 12288))%N.

Fixpoint lstrip (s : str) : str :=
  match s with
  | c :: s' => if isspace c then lstrip s' else s
  | [] => []
  end.

Definition rstrip (s : str) : str := reverse (lstrip (reverse s)).

(** [s.strip()] *)
Definition strip (s : str) : str := lstrip (rstrip s).

(** [s.split(sep)] for a one-character separator: always at least one
    fragment, empty fragments kept. *)
Fixpoint split (sep : N) (s : str) : list str :=
  match s with
  | [] => [[]]
  | c :: s' =>
      if (c =? sep)%N then [] :: split sep s'
      else match split sep s' with
           | w :: ws => (c :: w) :: ws
           | [] => [[c]]
           end
  end.

(** [sep.join(parts)] *)
Fixpoint join (sep : str) (parts : list str) : str :=
  match parts with
  | [] => []
  | [p] => p
  | p :: ps => p ++ sep ++ join sep ps
  end.

(** Truthiness of a [str]: non-empty. *)
Definition nonempty (s : str) : bool :=
  match s with [] => false | _ => true end.

Definition dot : N := 46.
Definition newline : str := [10%N].
Definition ellipsis : str := py "...".

(** [s.startswith(prefix)] and [s.endswith(suffix)] *)
Fixpoint startswith (s prefix : str) : bool :=
  match prefix, s with
  | [], _ => true
  | p :: prefix', c :: s' => (c =? p)%N && startswith s' prefix'
  | _ :: _, [] => false
  end.

Definition endswith (s suffix : str) : bool :=
  startswith (reverse s) (reverse suffix).

(** [needle in hay] on two strings: substring test. *)
Fixpoint contains (hay needle : str) : bool :=
  startswith hay needle
  || match hay with
     | [] => false
     | _ :: hay' => contains hay' needle
     end.

(** [s.split()]: fragments between runs of whitespace, none empty. *)
Fixpoint split_whitespace_aux (s cur : str) : list str :=
  match s with
  | [] => if nonempty cur then [reverse cur] else []
  | c :: s' =>
      if isspace c
      then (if nonempty cur then [reverse cur] else []) ++ split_whitespace_aux s' []
      else split_whitespace_aux s' (c :: cur)
  end.

Definition split_whitespace (s : str) : list str := split_whitespace_aux s [].

(** [f"{z:05d}"] for [0 <= z < 100000], the only range the handlers
    format (the operand is a remainder modulo 100000). *)
Definition fmt_05d (z : Z) : str :=
  (fun k => Z.to_N (48 + (z / 10 ^ k) mod 10)) <$> [4; 3; 2; 1; 0].

(** ** Python values and exceptions *)

(** The values a decoded JSON event holds, and the values the handlers
    hand to [json.dumps]. A finite [float] is the rational it denotes
    (NaN and the infinities are not JSON). A [dict] with string keys keeps
    its insertion order. *)
Inductive pyval : Type :=
| VNone
| VBool (b : bool)
| VInt (z : Z)
| VFloat (q : Q)
| VStr (s : str)
| VList (l : list pyval)
| VDict (d : list (str * pyval)).

(** A raised exception: its class and [str(e)]. Every handler of the
    source is [except Exception as e] and reads [str(e)] only. *)
Record exn : Type := Exn { exn_class : string; exn_str : str }.

Inductive result (A : Type) : Type :=
| Ok (a : A)
| Raise (e : exn).
Arguments Ok {A} a.
Arguments Raise {A} e.

Definition bind {A B} (c : result A) (k : A -> result B) : result B :=
  match c with
  | Ok a => k a
  | Raise e => Raise e
  end.

Declare Scope result_scope.
Delimit Scope result_scope with result.
Notation "'let*' x ':=' c 'in' k" := (bind c (fun x => k))
  (at level 10, x name, c at level 100, k at level 200) : result_scope.
Local Open Scope result_scope.

(** [type(v).__name__], as CPython's messages print it. *)
Definition type_name (v : pyval) : str :=
  match v with
  | VNone => py "NoneType"
  | VBool _ => py "bool"
  | VInt _ => py "int"
  | VFloat _ => py "float"
  | VStr _ => py "str"
  | VList _ => py "list"
  | VDict _ => py "dict"
  end.

Definition AttributeError (v : pyval) (attr : string) : exn :=
  Exn "AttributeError"
      (py "'" ++ type_name v ++ py "' object has no attribute '" ++ py attr ++ py "'").

Definition TypeError (msg : str) : exn := Exn "TypeError" msg.

(** [bool(v)] *)
Definition truthy (v : pyval) : bool :=
  match v with
  | VNone => false
  | VBool b => b
  | VInt z => negb (z =? 0)
  | VFloat q => negb (Qeq_bool q 0)
  | VStr s => nonempty s
  | VList l => match l with [] => false | _ => true end
  | VDict d => match d with [] => false | _ => true end
  end.

(** Lookup in a string-keyed [dict]. *)
Fixpoint lookup_item (k : str) (d : list (str * pyval)) : option pyval :=
  match d with
  | [] => None
  | (k', v) :: d' => if bool_decide (k' = k) then Some v else lookup_item k d'
  end.

(** [o.get(key, default)]: only a [dict] has the method. *)
Definition get (o : pyval) (key : str) (default : pyval) : result pyval :=
  match o with
  | VDict d => Ok (from_option id default (lookup_item key d))
  | _ => Raise (AttributeError o "get")
  end.

(** [for x in o]: the elements a [for] loop visits. *)
Definition iterate (o : pyval) : result (list pyval) :=
  match o with
  | VList l => Ok l
  | VStr s => Ok ((fun c => VStr [c]) <$> s)
  | VDict d => Ok ((fun kv => VStr kv.1) <$> d)
  | _ => Raise (TypeError (py "'" ++ type_name o ++ py "' object is not iterable"))
  end.

(** [len(o)] *)
Definition py_len (o : pyval) : result Z :=
  match o with
  | VStr s => Ok (len s)
  | VList l => Ok (len l)
  | VDict d => Ok (len d)
  | _ => Raise (TypeError (py "object of type '" ++ type_name o ++ py "' has no len()"))
  end.

(** [o.method] for a method only [str] has ([split], [lower]): the
    receiver as a [str], or the [AttributeError] of the lookup. *)
Definition str_receiver (o : pyval) (method : string) : result str :=
  match o with
  | VStr s => Ok s
  | _ => Raise (AttributeError o method)
  end.

(** [o == 'literal'] *)
Definition eq_str (o : pyval) (literal : str) : bool :=
  match o with
  | VStr s => bool_decide (s = literal)
  | _ => false
  end.

(** Keys of a [dict] built at run time, up to Python's [==]: [True == 1]
    and [1 == 1.0] are one key. *)
Inductive pykey : Type :=
| KNone
| KNum (q : Qc)
| KStr (s : str).

#[global] Instance pykey_eq_dec : EqDecision pykey.
Proof. solve_decision. Defined.

#[global] Instance pykey_countable : Countable pykey.
Proof.
  refine (inj_countable'
            (fun k => match k with
                      | KNone => inl (inl ())
                      | KNum q => inl (inr q)
                      | KStr s => inr s
                      end)
            (fun x => match x with
                      | inl (inl _) => KNone
                      | inl (inr q) => KNum q
                      | inr s => KStr s
                      end) _).
  intros []; reflexivity.
Defined.

(** [hash(v)] succeeds: the key [v] denotes; a [list] or a [dict] is
    unhashable. *)
Definition key_of (v : pyval) : result pykey :=
  match v with
  | VNone => Ok KNone
  | VBool b => Ok (KNum (Q2Qc (inject_Z (if b then 1 else 0))))
  | VInt z => Ok (KNum (Q2Qc (inject_Z z)))
  | VFloat q => Ok (KNum (Q2Qc q))
  | VStr s => Ok (KStr s)
  | VList _ | VDict _ =>
      Raise (TypeError (py "unhashable type: '" ++ type_name v ++ py "'"))
  end.

(** A [dict] the code builds and reads by key. *)
Abbreviation pydict := (gmap pykey pyval).

(** [d.get(key, default)] for a string literal [key]. *)
Definition dict_get (d : pydict) (key : str) (default : pyval) : pyval :=
  from_option id default (d !! KStr key).

(** ** What the interpreter and its libraries provide

    Builtins whose results the handlers only pass on. [hash] of a [str] is
    salted per process; [int], [str.lower], [str()], [round], [json] and
    the codecs are CPython's. The two laws are facts of CPython: [str()]
    of a [str] is that string, and [lower] maps an ASCII string letter by
    letter. *)
Definition ascii_lower (c : N) : N :=
  if ((65 <=? c) && (c <=? 90))%N then (c + 32)%N else c.

Definition is_ascii (s : str) : bool := forallb (fun c => (c <? 128)%N) s.

Abbreviation bytes := (list Byte.byte).

Class PyRuntime : Type := {
  (** [hash(s)] *)
  hash : str -> Z;
  (** [int(s)]; [None] when it raises [ValueError] *)
  int_of_str : str -> option Z;
  (** [round(a / b, 2)] *)
  round2_div : Z -> Z -> Q;
  (** [str(v)], which is what an f-string field prints *)
  str_of : pyval -> str;
  str_of_str : forall s, str_of (VStr s) = s;
  (** [s.lower()] *)
  lower : str -> str;
  lower_ascii : forall s, is_ascii s = true -> lower s = ascii_lower <$> s;
  (** [json.dumps(v)] and [json.dumps(v, indent=2)] *)
  json_dumps : pyval -> str;
  json_dumps_indent2 : pyval -> str;
  (** [json.loads(s)] *)
  json_loads : str -> result pyval;
  (** [b.decode('utf-8')] and [b.decode('utf-8', errors='ignore')] *)
  decode_utf8 : bytes -> result str;
  decode_utf8_ignore : bytes -> str;
}.

(** [int(v)] inside [try: ... except (ValueError, TypeError)]: [None] is
    the handler's [max_length = None]. *)
Definition int_or_none `{PyRuntime} (v : pyval) : option Z :=
  match v with
  | VInt z => Some z
  | VBool b => Some (if b then 1 else 0)
  | VFloat q => Some (Z.quot (Qnum q) (Z.pos (Qden q)))
  | VStr s => int_of_str s
  | VNone | VList _ | VDict _ => None
  end.

(** ** What the two function-call handlers share

    The summary generator and the text processor carry the same
    [create_success_response] and [create_error_response], and the same
    loop that turns the [parameters] list into a dictionary. *)
Module FunctionCall.
Section FunctionCall.
Context `{PyRuntime}.

Definition envelope (action_group function_name : pyval)
    (functionResponse : list (str * pyval)) : pyval :=
  VDict [(py "messageVersion", VStr (py "1.0"));
         (py "response",
          VDict [(py "actionGroup", action_group);
                 (py "function", function_name);
                 (py "functionResponse", VDict functionResponse)])].

Definition responseBody (body : str) : str * pyval :=
  (py "responseBody", VDict [(py "TEXT", VDict [(py "body", VStr body)])]).

Definition create_success_response (action_group function_name result : pyval)
  : pyval :=
  envelope action_group function_name [responseBody (json_dumps result)].

(** [details] defaults to [None]; [if details:] adds the key. *)
Definition error_data (error_message : str) (details : pyval) : pyval :=
  VDict ((py "error", VStr error_message)
         :: (if truthy details then [(py "details", details)] else [])).

Definition create_error_response (action_group function_name : pyval)
    (error_message : str) (details : pyval) : pyval :=
  envelope action_group function_name
    [(py "responseState", VStr (py "FAILURE"));
     responseBody (json_dumps (error_data error_message details))].

(** One turn of [for param in parameters_list:
                     parameters[param.get('name', '')] = param.get('value', '')] *)
Definition set_parameter (parameters : pydict) (param : pyval) : result pydict :=
  let* value := get param (py "value") (VStr []) in
  let* name := get param (py "name") (VStr []) in
  let* key := key_of name in
  Ok (<[key := value]> parameters).

Fixpoint for_each {S} (body : S -> pyval -> result S) (items : list pyval)
    (state : S) : result S :=
  match items with
  | [] => Ok state
  | item :: items' =>
      let* state' := body state item in
      for_each body items' state'
  end.

(** The parameter list as a dictionary. *)
Definition parameters_dict (parameters_list : pyval) : result pydict :=
  let* params := iterate parameters_list in
  for_each set_parameter params ∅.

End FunctionCall.
End FunctionCall.

(** ** summary_generator.py *)

Module Summary.

(** [[s.strip() for s in text.split('.') if s.strip()]] *)
Definition sentences (text : str) : list str :=
  List.filter nonempty (strip <$> split dot text).

(** The closing lines of [generate_brief_summary] and
    [generate_detailed_summary]:
    [if max_length and len(summary) > max_length:
         summary = summary[:max_length-3] + "..."] *)
Definition apply_max_length (summary : str) (max_length : option Z) : str :=
  match max_length with
  | Some m =>
      if negb (m =? 0) && (m <? len summary)
      then slice_to (m - 3) summary ++ ellipsis
      else summary
  | None => summary
  end.

Definition no_content : str := py "No content to summarize.".

Definition generate_brief_summary (text : str) (max_length : option Z) : str :=
  match sentences text with
  | [] => no_content
  | [s0] => apply_max_length s0 max_length
  | [s0; s1] => apply_max_length (s0 ++ py ". " ++ s1) max_length
  | s0 :: rest => apply_max_length (s0 ++ py ". " ++ List.last rest []) max_length
  end.

Definition generate_detailed_summary (text : str) (max_length : option Z) : str :=
  let sentences := sentences text in
  match sentences with
  | [] => no_content
  | _ =>
      let max_sentences := Z.min 5 (len sentences) in
      let summary :=
        if len sentences <=? max_sentences
        then join (py ". ") sentences ++ py "."
        else
          let first_sentences := slice_to 3 sentences in
          let last_sentences := slice_from (-2) sentences in
          join (py ". ") (first_sentences ++ last_sentences) ++ py "."
      in
      apply_max_length summary max_length
  end.

(** The bullet prefix as the source file has it: the three code points
    U+00E2 U+20AC U+00A2 and a space. *)
Definition bullet : str := [226; 8364; 162; 32]%N.

(** The [for i, sentence in enumerate(selected_sentences)] body. *)
Definition bullet_point (sentence : str) : str :=
  bullet ++ (if 100 <? len sentence
             then slice_to 97 sentence ++ ellipsis
             else sentence).

(** The truncation loop: points are kept while
    [current_length + len(point) + 1 <= max_length - 3]; the first point
    that does not fit ends the loop ([break]). *)
Fixpoint truncated_points (points : list str) (current_length max_length : Z)
  : list str :=
  match points with
  | [] => []
  | point :: rest =>
      if current_length + len point + 1 <=? max_length - 3
      then point :: truncated_points rest (current_length + len point + 1) max_length
      else []
  end.

Definition generate_bullet_points_summary (text : str) (max_length : option Z)
  : str :=
  let sentences := sentences text in
  match sentences with
  | [] => no_content
  | _ =>
      let max_points := Z.min 5 (len sentences) in
      let selected_sentences := slice_to max_points sentences in
      let bullet_points := bullet_point <$> selected_sentences in
      let summary := join newline bullet_points in
      match max_length with
      | Some m =>
          if negb (m =? 0) && (m <? len summary)
          then join newline (truncated_points bullet_points 0 m) ++ ellipsis
          else summary
      | None => summary
      end
  end.

(** *** The handler *)

Section Handler.
Context `{PyRuntime}.
Import FunctionCall.

Definition valid_types : list str :=
  [py "brief"; py "detailed"; py "bullet_points"].

(** The [if summary_type == 'brief': ... elif ...] chain, entered with
    [summary_type] equal to the literal [kind]. The summarizers call
    [text.split('.')] first, which only a [str] has. *)
Definition summarize (kind : str) (text : pyval) (max_length : option Z)
  : result str :=
  if bool_decide (kind = py "brief") then
    let* text := str_receiver text "split" in
    Ok (generate_brief_summary text max_length)
  else if bool_decide (kind = py "detailed") then
    let* text := str_receiver text "split" in
    Ok (generate_detailed_summary text max_length)
  else if bool_decide (kind = py "bullet_points") then
    let* text := str_receiver text "split" in
    Ok (generate_bullet_points_summary text max_length)
  else
    Raise (Exn "UnboundLocalError"
             (py "cannot access local variable 'summary' where it is not associated with a value")).

(** The body of [generate_summary]'s [try]. *)
Definition generate_summary_try (parameters : pydict)
    (action_group function_name : pyval) : result pyval :=
  let text := dict_get parameters (py "text") (VStr []) in
  let summary_type := dict_get parameters (py "summary_type") (VStr (py "brief")) in
  let max_length := dict_get parameters (py "max_length") VNone in
  let max_length :=
    match max_length with
    | VNone => None
    | v => int_or_none v
    end in
  if negb (truthy text) then
    Ok (create_error_response action_group function_name
          (py "Missing required parameter: text") VNone)
  else
    (* [summary_type not in [...]]: no literal equals it *)
    match find (eq_str summary_type) valid_types with
    | None =>
        Ok (create_error_response action_group function_name
              (py "Invalid summary_type")
              (VDict [(py "valid_types", VList (VStr <$> valid_types))]))
    | Some kind =>
        (* the log line evaluates [len(text)] *)
        let* original_length := py_len text in
        let* summary := summarize kind text max_length in
        let* text := str_receiver text "split" in
        let summary_id :=
          py "sum_" ++ fmt_05d (hash (text ++ kind) mod 100000) in
        let result :=
          VDict [(py "summary_id", VStr summary_id);
                 (py "summary", VStr summary);
                 (py "summary_type", summary_type);
                 (py "original_length", VInt original_length);
                 (py "summary_length", VInt (len summary));
                 (py "compression_ratio",
                  VFloat (round2_div (len summary) original_length))] in
        Ok (create_success_response action_group function_name result)
    end.

(** [generate_summary]: the [try] and its [except Exception as e]. *)
Definition generate_summary (parameters : pydict)
    (action_group function_name : pyval) : pyval :=
  match generate_summary_try parameters action_group function_name with
  | Ok response => response
  | Raise e =>
      create_error_response action_group function_name
        (py "Summary generation failed") (VStr (exn_str e))
  end.

(** The body of [lambda_handler]'s [try]. *)
Definition lambda_handler_try (event : pyval) : result pyval :=
  let* function_name := get event (py "function") (VStr []) in
  let* action_group := get event (py "actionGroup") (VStr []) in
  let* parameters_list := get event (py "parameters") (VList []) in
  let* parameters := parameters_dict parameters_list in
  if eq_str function_name (py "generate_summary") then
    Ok (generate_summary parameters action_group function_name)
  else
    Ok (create_error_response action_group function_name
          (py "Unknown function: " ++ str_of function_name)
          (VList [VStr (py "generate_summary")])).

(** [lambda_handler]: the handler of [except Exception as e] reads the
    event again, so it is a computation of its own. *)
Definition lambda_handler (event : pyval) : result pyval :=
  match lambda_handler_try event with
  | Ok response => Ok response
  | Raise e =>
      let* action_group := get event (py "actionGroup") (VStr []) in
      let* function_name := get event (py "function") (VStr []) in
      Ok (create_error_response action_group function_name
            (py "Internal server error") (VStr (exn_str e)))
  end.

End Handler.
End Summary.

(** ** text_processor.py *)

(** [s3_client.get_object(Bucket=..., Key=...)['Body'].read()]: the bytes
    of the object, or the exception boto3 raises. *)
Class S3Client : Type := {
  get_object : pyval -> pyval -> result bytes;
}.

(** [a + b] where [b] is a [str]: only a [str] on the left concatenates. *)
Definition add_str (a : pyval) (b : str) : result str :=
  match a with
  | VStr s => Ok (s ++ b)
  | VList _ =>
      Raise (TypeError (py "can only concatenate list (not " ++ [34%N]
                          ++ py "str" ++ [34%N] ++ py ") to list"))
  | _ =>
      Raise (TypeError (py "unsupported operand type(s) for +: '"
                          ++ type_name a ++ py "' and 'str'"))
  end.

Module TextProcessor.
Section Handler.
Context `{PyRuntime} `{S3Client}.
Import FunctionCall.

Definition valid_types : list str := [py "extract"; py "analyze"; py "clean"].

(** [s3_key.split('.')[-1].lower()] *)
Definition file_type (s3_key : str) : pyval :=
  VStr (lower (List.last (split dot s3_key) [])).

(** The [if processing_type == 'extract': ... elif ...] chain, entered with
    [processing_type] equal to the literal [kind]: the processed text and
    the metadata. *)
Definition process (kind : str) (s3_key : str) (file_content : bytes)
    (text_content : str) : str * pyval :=
  if bool_decide (kind = py "extract") then
    (text_content,
     VDict [(py "file_size", VInt (len file_content));
            (py "character_count", VInt (len text_content));
            (py "word_count", VInt (len (split_whitespace text_content)));
            (py "file_type", file_type s3_key)])
  else if bool_decide (kind = py "analyze") then
    (text_content,
     VDict [(py "file_size", VInt (len file_content));
            (py "character_count", VInt (len text_content));
            (py "word_count", VInt (len (split_whitespace text_content)));
            (py "line_count", VInt (len (split 10%N text_content)));
            (py "file_type", file_type s3_key);
            (py "sentiment", VStr (py "neutral"));
            (py "key_topics",
             VList [VStr (py "document"); VStr (py "text"); VStr (py "processing")])])
  else
    let processed_text := strip text_content in
    let processed_text :=
      join newline
        (List.filter nonempty (strip <$> split 10%N processed_text)) in
    (processed_text,
     VDict [(py "file_size", VInt (len file_content));
            (py "original_character_count", VInt (len text_content));
            (py "cleaned_character_count", VInt (len processed_text));
            (py "file_type", file_type s3_key)]).

(** The body of [process_text]'s [try]. *)
Definition process_text_try (parameters : pydict)
    (action_group function_name : pyval) : result pyval :=
  let s3_bucket := dict_get parameters (py "s3_bucket") VNone in
  let s3_key := dict_get parameters (py "s3_key") VNone in
  let processing_type := dict_get parameters (py "processing_type") (VStr (py "extract")) in
  if negb (truthy s3_bucket) || negb (truthy s3_key) then
    Ok (create_error_response action_group function_name
          (py "Missing required parameters")
          (VDict [(py "required", VList [VStr (py "s3_bucket"); VStr (py "s3_key")])]))
  else
    let* file_content := get_object s3_bucket s3_key in
    let* key := str_receiver s3_key "lower" in
    let* text_content :=
      if endswith (lower key) (py ".txt") then decode_utf8 file_content
      else if endswith (lower key) (py ".json") then
        let* text := decode_utf8 file_content in
        let* json_content := json_loads text in
        Ok (json_dumps_indent2 json_content)
      else Ok (decode_utf8_ignore file_content) in
    match find (eq_str processing_type) valid_types with
    | None =>
        Ok (create_error_response action_group function_name
              (py "Invalid processing type")
              (VDict [(py "valid_types", VList (VStr <$> valid_types))]))
    | Some kind =>
        let '(processed_text, metadata) := process kind key file_content text_content in
        let* bucket_key := add_str s3_bucket key in
        let processing_id :=
          py "proc_" ++ fmt_05d (hash (bucket_key ++ kind) mod 100000) in
        let result :=
          VDict [(py "processing_id", VStr processing_id);
                 (py "status", VStr (py "completed"));
                 (py "extracted_text", VStr (slice_to 1000 processed_text));
                 (py "metadata", metadata);
                 (py "processing_type", processing_type);
                 (py "source",
                  VDict [(py "bucket", s3_bucket); (py "key", s3_key)])] in
        Ok (create_success_response action_group function_name result)
    end.

(** [process_text]: the [try] and its [except Exception as e]. *)
Definition process_text (parameters : pydict)
    (action_group function_name : pyval) : pyval :=
  match process_text_try parameters action_group function_name with
  | Ok response => response
  | Raise e =>
      create_error_response action_group function_name
        (py "Text processing failed") (VStr (exn_str e))
  end.

(** The body of [lambda_handler]'s [try]. *)
Definition lambda_handler_try (event : pyval) : result pyval :=
  let* function_name := get event (py "function") (VStr []) in
  let* action_group := get event (py "actionGroup") (VStr []) in
  let* parameters_list := get event (py "parameters") (VList []) in
  let* parameters := parameters_dict parameters_list in
  if eq_str function_name (py "process_text") then
    Ok (process_text parameters action_group function_name)
  else
    Ok (create_error_response action_group function_name
          (py "Unknown function: " ++ str_of function_name)
          (VList [VStr (py "process_text")])).

Definition lambda_handler (event : pyval) : result pyval :=
  match lambda_handler_try event with
  | Ok response => Ok response
  | Raise e =>
      let* action_group := get event (py "actionGroup") (VStr []) in
      let* function_name := get event (py "function") (VStr []) in
      Ok (create_error_response action_group function_name
            (py "Internal server error") (VStr (exn_str e)))
  end.

End Handler.
End TextProcessor.

(** ** order-lookup/app.py *)

Module OrderLookup.
Section Handler.
Context `{PyRuntime}.

Definition item (product : string) (quantity : Z) (price : Q) : pyval :=
  VDict [(py "product", VStr (py product));
         (py "quantity", VInt quantity);
         (py "price", VFloat price)].

Definition order_12345 : pyval :=
  VDict [(py "order_id", VStr (py "12345"));
         (py "customer_name", VStr (py "John Doe"));
         (py "status", VStr (py "shipped"));
         (py "items", VList [item "Widget A" 2 (2999 # 100);
                             item "Widget B" 1 (4550 # 100)]);
         (py "total", VFloat (10548 # 100));
         (py "tracking_number", VStr (py "TRK789456123"))].

Definition order_67890 : pyval :=
  VDict [(py "order_id", VStr (py "67890"));
         (py "customer_name", VStr (py "Jane Smith"));
         (py "status", VStr (py "processing"));
         (py "items", VList [item "Gadget X" 1 (19999 # 100)]);
         (py "total", VFloat (19999 # 100));
         (py "tracking_number", VNone)].

Definition mock_orders : pydict :=
  <[KStr (py "67890") := order_67890]> (<[KStr (py "12345") := order_12345]> ∅).

Definition not_found (order_id : pyval) : pyval :=
  VDict [(py "order_id", order_id);
         (py "status", VStr (py "not_found"));
         (py "message", VStr (py "Order not found in system"))].

(** [mock_orders.get(order_id, {...})]: the lookup hashes its key. *)
Definition lookup_order (order_id : pyval) : result pyval :=
  let* key := key_of order_id in
  Ok (from_option id (not_found order_id) (mock_orders !! key)).

(** [for param in parameters:
        if param.get('name') == 'order_id':
            order_id = param.get('value'); break],
    from [order_id = None]. *)
Fixpoint find_order_id (parameters : list pyval) : result pyval :=
  match parameters with
  | [] => Ok VNone
  | param :: rest =>
      let* name := get param (py "name") VNone in
      if eq_str name (py "order_id")
      then get param (py "value") VNone
      else find_order_id rest
  end.

Definition response (statusCode : Z) (body : pyval) : pyval :=
  VDict [(py "statusCode", VInt statusCode);
         (py "body", VStr (json_dumps body))].

(** The body of [handler]'s [try]. *)
Definition handler_try (event : pyval) : result pyval :=
  let* input_text := get event (py "inputText") (VStr []) in
  let* parameters := get event (py "parameters") (VList []) in
  let* parameters := iterate parameters in
  let* order_id := find_order_id parameters in
  if negb (truthy order_id) then
    Ok (response 400
          (VDict [(py "error", VStr (py "Missing required parameter: order_id"))]))
  else
    let* order_data := lookup_order order_id in
    Ok (response 200
          (VDict [(py "order", order_data);
                  (py "message",
                   VStr (py "Successfully retrieved order " ++ str_of order_id))])).

(** [handler]: the [except Exception] branch answers with a constant. *)
Definition handler (event : pyval) : pyval :=
  match handler_try event with
  | Ok r => r
  | Raise e =>
      response 500 (VDict [(py "error", VStr (py "Internal server error"))])
  end.

End Handler.
End OrderLookup.

(** ** product-search-api/app.py *)

Module Product.
Record t : Type := {
  id : str;
  name : str;
  description : str;
  price : float;
  category : str;
  in_stock : bool;
}.
End Product.

Module ProductSearchRequest.
(** [limit] has the default 10; the other optional fields default to
    [None]. *)
Record t : Type := {
  query : str;
  category : option str;
  min_price : option float;
  max_price : option float;
  limit : option Z;
}.
End ProductSearchRequest.

Module ProductSearchResponse.
Record t : Type := {
  products : list Product.t;
  total_count : Z;
  query : str;
}.
End ProductSearchResponse.

Module ProductSearch.

Definition product (id name description : string) (price : float)
    (category : string) (in_stock : bool) : Product.t :=
  {| Product.id := py id; Product.name := py name;
     Product.description := py description; Product.price := price;
     Product.category := py category; Product.in_stock := in_stock |}.

Definition MOCK_PRODUCTS : list Product.t :=
  [product "1" "Wireless Headphones" "High-quality wireless headphones"
     99.99%float "Electronics" true;
   product "2" "Coffee Maker" "Automatic drip coffee maker"
     79.99%float "Kitchen" true;
   product "3" "Running Shoes" "Comfortable running shoes"
     129.99%float "Sports" false;
   product "4" "Laptop Stand" "Adjustable laptop stand"
     45.99%float "Office" true;
   product "5" "Smartphone" "Latest model smartphone"
     699.99%float "Electronics" true].

(** Truthiness of an [Optional[str]] and of an [Optional[float]]. *)
Definition truthy_str (o : option str) : bool :=
  match o with Some s => nonempty s | None => false end.

Definition truthy_float (o : option float) : bool :=
  match o with Some f => negb (PrimFloat.eqb f 0%float) | None => false end.

Section Search.
Context `{PyRuntime}.

(** One turn of the loop: [true] when the product reaches
    [filtered_products.append(product)], [false] at a [continue]. *)
Definition keeps (request : ProductSearchRequest.t) (product : Product.t) : bool :=
  let query := lower (ProductSearchRequest.query request) in
  if negb (contains (lower (Product.name product)) query)
     && negb (contains (lower (Product.description product)) query)
  then false
  else if truthy_str (ProductSearchRequest.category request)
          && negb (bool_decide
                     (lower (Product.category product)
                      = lower (default [] (ProductSearchRequest.category request))))
  then false
  else if truthy_float (ProductSearchRequest.min_price request)
          && PrimFloat.ltb (Product.price product)
               (default 0%float (ProductSearchRequest.min_price request))
  then false
  else if truthy_float (ProductSearchRequest.max_price request)
          && PrimFloat.ltb
               (default 0%float (ProductSearchRequest.max_price request))
               (Product.price product)
  then false
  else true.

Definition search_products (request : ProductSearchRequest.t)
  : ProductSearchResponse.t :=
  let filtered_products := List.filter (keeps request) MOCK_PRODUCTS in
  let limited_products :=
    match ProductSearchRequest.limit request with
    | Some n => slice_to n filtered_products
    | None => filtered_products
    end in
  {| ProductSearchResponse.products := limited_products;
     ProductSearchResponse.total_count := len filtered_products;
     ProductSearchResponse.query := ProductSearchRequest.query request |}.

End Search.
End ProductSearch.

(** ** An interpreter to run the handlers on

    One inhabitant of [PyRuntime] and one of [S3Client], used where a
    handler is evaluated on a concrete event. The serializer writes what
    [json.dumps] writes for [None], booleans, integers, strings, lists and
    dictionaries; a float is written as a decimal fraction. *)
Module Example.

Definition decimal (z : Z) : str := py (NilZero.string_of_int (Z.to_int z)).

Definition hex_digit (n : Z) : N :=
  Z.to_N (if n <? 10 then 48 + n else 87 + n).

(** [\uXXXX] *)
Definition u_escape (c : Z) : str :=
  py "\u" ++ ((fun k => hex_digit ((c / 16 ^ k) mod 16)) <$> [3; 2; 1; 0]).

Definition escape_char (c : N) : str :=
  if (c =? 34)%N then py "\" ++ [34%N]
  else if (c =? 92)%N then py "\\"
  else if (c =? 10)%N then py "\n"
  else if (c =? 13)%N then py "\r"
  else if (c =? 9)%N then py "\t"
  else if (c <? 32)%N || (127 <? c)%N && (c <? 65536)%N then u_escape (Z.of_N c)
  else if (65536 <=? c)%N then
    let v := Z.of_N c - 65536 in
    u_escape (55296 + v / 1024) ++ u_escape (56320 + v mod 1024)
  else [c].

Definition quoted (s : str) : str :=
  [34%N] ++ mjoin (escape_char <$> s) ++ [34%N].

Fixpoint rstrip_zeros (digits : list N) : list N :=
  match digits with
  | [] => []
  | d :: rest =>
      match rstrip_zeros rest with
      | [] => if (d =? 48)%N then [] else [d]
      | rest' => d :: rest'
      end
  end.

Definition float_repr (q : Q) : str :=
  let scaled := Z.abs (Qnum q) * 10 ^ 17 / Z.pos (Qden q) in
  let fraction :=
    rstrip_zeros ((fun k => Z.to_N (48 + (scaled / 10 ^ Z.of_nat k) mod 10))
                    <$> reverse (seq 0 17)) in
  (if Qnum q <? 0 then py "-" else [])
  ++ decimal (scaled / 10 ^ 17) ++ py "."
  ++ (if nonempty fraction then fraction else py "0").

Fixpoint dumps (v : pyval) : str :=
  match v with
  | VNone => py "null"
  | VBool b => if b then py "true" else py "false"
  | VInt z => decimal z
  | VFloat q => float_repr q
  | VStr s => quoted s
  | VList l =>
      py "[" ++ join (py ", ")
                  ((fix each (l : list pyval) : list str :=
                      match l with
                      | [] => []
                      | x :: l' => dumps x :: each l'
                      end) l)
      ++ py "]"
  | VDict d =>
      py "{" ++ join (py ", ")
                  ((fix each (d : list (str * pyval)) : list str :=
                      match d with
                      | [] => []
                      | (k, x) :: d' => (quoted k ++ py ": " ++ dumps x) :: each d'
                      end) d)
      ++ py "}"
  end.

Definition to_str (v : pyval) : str :=
  match v with
  | VStr s => s
  | VNone => py "None"
  | VBool b => if b then py "True" else py "False"
  | VInt z => decimal z
  | _ => dumps v
  end.

Definition is_digit (c : N) : bool := ((48 <=? c) && (c <=? 57))%N.

Definition digits_value (s : str) : Z :=
  foldl (fun acc c => 10 * acc + (Z.of_N c - 48)) 0 s.

(** [int(s)] for an optional sign and ASCII digits between whitespace. *)
Definition parse_int (s : str) : option Z :=
  match strip s with
  | [] => None
  | c :: rest =>
      let '(sign, digits) :=
        if (c =? 45)%N then (-1, rest)
        else if (c =? 43)%N then (1, rest)
        else (1, c :: rest) in
      if nonempty digits && forallb is_digit digits
      then Some (sign * digits_value digits)
      else None
  end.

(** ASCII bytes decode to themselves; any other byte is refused. *)
Definition decode_ascii (b : bytes) : result str :=
  if forallb (fun x => (Byte.to_N x <? 128)%N) b
  then Ok (Byte.to_N <$> b)
  else Raise (Exn "UnicodeDecodeError"
                (py "'utf-8' codec can't decode byte: invalid start byte")).

Definition decode_ascii_ignore (b : bytes) : str :=
  Byte.to_N <$> List.filter (fun x => (Byte.to_N x <? 128)%N) b.

Definition runtime : PyRuntime := {|
  hash := fun s => foldl (fun h c => (31 * h + Z.of_N c) mod 2 ^ 61) 7 s;
  int_of_str := parse_int;
  round2_div := fun a b => (((200 * a + b) / (2 * b)) # 100);
  str_of := to_str;
  str_of_str := fun s => eq_refl;
  lower := fmap ascii_lower;
  lower_ascii := fun s _ => eq_refl;
  json_dumps := dumps;
  json_dumps_indent2 := dumps;
  json_loads := fun s =>
    Raise (Exn "JSONDecodeError" (py "Expecting value: line 1 column 1 (char 0)"));
  decode_utf8 := decode_ascii;
  decode_utf8_ignore := decode_ascii_ignore;
|}.

(** A bucket [docs] that holds [notes.txt]. *)
Definition s3 : S3Client := {|
  get_object := fun bucket key =>
    if eq_str bucket (py "docs") && eq_str key (py "notes.txt")
    then Ok [x48; x69; x2e; x20; x42; x79; x65; x2e]%byte
    else Raise (Exn "NoSuchKey"
                  (py "An error occurred (NoSuchKey) when calling the GetObject operation: The specified key does not exist."))
|}.

(** An event as the orchestrator sends it. *)
Definition parameter (name value : string) : pyval :=
  VDict [(py "name", VStr (py name));
         (py "type", VStr (py "string"));
         (py "value", VStr (py value))].

Definition event (action_group function_name : string) (parameters : list pyval)
  : pyval :=
  VDict [(py "messageVersion", VStr (py "1.0"));
         (py "actionGroup", VStr (py action_group));
         (py "function", VStr (py function_name));
         (py "parameters", VList parameters)].

End Example.

(** ** The vocabulary of the statements *)

(** An entry of the [parameters] list as the orchestrator sends it: a
    dictionary with a string under [name] and a value under [value]. *)
Definition named_value (param : pyval) : option (str * pyval) :=
  match param with
  | VDict d =>
      match lookup_item (py "name") d, lookup_item (py "value") d with
      | Some (VStr name), Some value => Some (name, value)
      | _, _ => None
      end
  | _ => None
  end.

(** Last write wins: the value of the last entry with the name. *)
Fixpoint last_write_wins (name : str) (entries : list (str * pyval))
  : option pyval :=
  match entries with
  | [] => None
  | (n, v) :: rest =>
      match last_write_wins name rest with
      | Some later => Some later
      | None => if bool_decide (n = name) then Some v else None
      end
  end.

(** The value of the first entry with the name. *)
Fixpoint first_value (name : str) (entries : list (str * pyval))
  : option pyval :=
  match entries with
  | [] => None
  | (n, v) :: rest =>
      if bool_decide (n = name) then Some v else first_value name rest
  end.

(** [event.get(key, default)] on the items of the event. *)
Definition field (event : list (str * pyval)) (key : string) (default : pyval)
  : pyval :=
  from_option id default (lookup_item (py key) event).

(** The two shapes of the function-call envelope: without and with
    [responseState: FAILURE]. *)
Definition is_success (response : pyval) : Prop :=
  exists action_group function_name body,
    response
    = FunctionCall.envelope action_group function_name
        [FunctionCall.responseBody body].

Definition is_failure (response : pyval) : Prop :=
  exists action_group function_name body,
    response
    = FunctionCall.envelope action_group function_name
        [(py "responseState", VStr (py "FAILURE"));
         FunctionCall.responseBody body].

(** A required parameter is missing when no entry carries it or the
    entry's value is false in Python's sense (the empty string). *)
Definition absent_or_empty (value : option pyval) : Prop :=
  from_option truthy false value = false.

(** A failure envelope, with the object its body serializes. *)
Definition failure `{PyRuntime} (action_group function_name error_data : pyval)
  : pyval :=
  FunctionCall.envelope action_group function_name
    [(py "responseState", VStr (py "FAILURE"));
     FunctionCall.responseBody (json_dumps error_data)].

(** A request as FastAPI builds it when only [query] is sent. *)
Definition query_only (query : string) : ProductSearchRequest.t :=
  {| ProductSearchRequest.query := py query;
     ProductSearchRequest.category := None;
     ProductSearchRequest.min_price := None;
     ProductSearchRequest.max_price := None;
     ProductSearchRequest.limit := Some 10 |}.

(** The value of a string of decimal digits. *)
Definition decimal_value (digits : str) : Z :=
  foldl (fun acc c => 10 * acc + (Z.of_N c - 48)) 0 digits.

(** The summarizer a [summary_type] literal selects. *)
Definition summarizer (kind : str) : str -> option Z -> str :=
  if bool_decide (kind = py "brief") then Summary.generate_brief_summary
  else if bool_decide (kind = py "detailed") then Summary.generate_detailed_summary
  else Summary.generate_bullet_points_summary.

(** [max_length] as [generate_summary] reads it from the entries: absent,
    or what [int()] makes of the last value sent. *)
Definition max_length_of `{PyRuntime} (entries : list (str * pyval)) : option Z :=
  match from_option id VNone (last_write_wins (py "max_length") entries) with
  | VNone => None
  | v => int_or_none v
  end.

(** The [if s3_key.lower().endswith('.txt'): ... elif ... else ...] chain
    of [process_text]: the text of the object. *)
Definition decoded `{PyRuntime} (key : str) (file_content : bytes) : result str :=
  if endswith (lower key) (py ".txt") then decode_utf8 file_content
  else if endswith (lower key) (py ".json") then
    let* text := decode_utf8 file_content in
    let* json_content := json_loads text in
    Ok (json_dumps_indent2 json_content)
  else Ok (decode_utf8_ignore file_content).

(** The length of joined strings, counted with one separator after each
    part. *)
Fixpoint padded_length (sep : str) (parts : list str) : Z :=
  match parts with
  | [] => 0
  | p :: ps => len p + len sep + padded_length sep ps
  end.

(** The request with another [query], [category] or [limit]. *)
Definition with_query (request : ProductSearchRequest.t) (query : str)
  : ProductSearchRequest.t :=
  {| ProductSearchRequest.query := query;
     ProductSearchRequest.category := ProductSearchRequest.category request;
     ProductSearchRequest.min_price := ProductSearchRequest.min_price request;
     ProductSearchRequest.max_price := ProductSearchRequest.max_price request;
     ProductSearchRequest.limit := ProductSearchRequest.limit request |}.

Definition with_category (request : ProductSearchRequest.t)
    (category : option str) : ProductSearchRequest.t :=
  {| ProductSearchRequest.query := ProductSearchRequest.query request;
     ProductSearchRequest.category := category;
     ProductSearchRequest.min_price := ProductSearchRequest.min_price request;
     ProductSearchRequest.max_price := ProductSearchRequest.max_price request;
     ProductSearchRequest.limit := ProductSearchRequest.limit request |}.

Definition with_limit (request : ProductSearchRequest.t) (limit : option Z)
  : ProductSearchRequest.t :=
  {| ProductSearchRequest.query := ProductSearchRequest.query request;
     ProductSearchRequest.category := ProductSearchRequest.category request;
     ProductSearchRequest.min_price := ProductSearchRequest.min_price request;
     ProductSearchRequest.max_price := ProductSearchRequest.max_price request;
     ProductSearchRequest.limit := limit |}.

(** Two ASCII strings that differ in the case of letters only. *)
Definition same_up_to_ascii_case (a b : str) : Prop :=
  is_ascii a = true /\ is_ascii b = true
  /\ ascii_lower <$> a = ascii_lower <$> b.

(** The products of the catalog the loop appends, in catalog order. *)
Definition matches `{PyRuntime} (request : ProductSearchRequest.t)
  : list Product.t :=
  List.filter (ProductSearch.keeps request) ProductSearch.MOCK_PRODUCTS.

(** What the search asks of a product, said without the loop: the
    lower-cased query occurs in the lower-cased name or in the lower-cased
    description; a category that is sent and is not the empty string is
    the product's category up to case; the price is not below a
    [min_price] that is sent and is not 0, and not above a [max_price]
    that is sent and is not 0. *)
Definition passes `{PyRuntime} (request : ProductSearchRequest.t)
    (product : Product.t) : Prop :=
  (contains (lower (Product.name product))
            (lower (ProductSearchRequest.query request)) = true
   \/ contains (lower (Product.description product))
               (lower (ProductSearchRequest.query request)) = true)
  /\ (forall category,
         ProductSearchRequest.category request = Some category ->
         category <> [] ->
         lower (Product.category product) = lower category)
  /\ (forall min_price,
         ProductSearchRequest.min_price request = Some min_price ->
         PrimFloat.eqb min_price 0%float = false ->
         PrimFloat.ltb (Product.price product) min_price = false)
  /\ (forall max_price,
         ProductSearchRequest.max_price request = Some max_price ->
         PrimFloat.eqb max_price 0%float = false ->
         PrimFloat.ltb max_price (Product.price product) = false).

(** A bucket [docs] that holds [data.json], an object that is no JSON. *)
Definition docs_with_broken_json : S3Client := {|
  get_object := fun bucket key =>
    if eq_str bucket (py "docs") && eq_str key (py "data.json")
    then Ok [x48; x69]%byte
    else Raise (Exn "NoSuchKey"
                  (py "An error occurred (NoSuchKey) when calling the GetObject operation: The specified key does not exist."))
|}.

(** * Verification *)

(** ** Lists and strings *)

Lemma len_app {A} (l k : list A) : len (l ++ k) = len l + len k.
Proof. unfold len. rewrite length_app. lia. Qed.

Lemma len_nonneg {A} (l : list A) : 0 <= len l.
Proof. unfold len. lia. Qed.

Lemma len_ellipsis : len ellipsis = 3.
Proof. reflexivity. Qed.

Lemma slice_to_len {A} (n : Z) (l : list A) :
  0 <= n <= len l -> len (slice_to n l) = n.
Proof.
  intros Hn. unfold slice_to.
  destruct (Z.leb_spec 0 n); [|lia].
  unfold len in *. rewrite length_take. lia.
Qed.

(** The last element of a non-empty list does not read the default. *)
Lemma last_cons {A} (x : A) (l : list A) (d : A) :
  List.last (x :: l) d = List.last l x.
Proof.
  revert x d. induction l as [|y l IH]; intros x d; [reflexivity|].
  change (List.last (x :: y :: l) d) with (List.last (y :: l) d).
  rewrite IH. symmetry. apply IH.
Qed.

(** A string without the separator is one fragment. *)
Lemma split_without (sep : N) (s : str) :
  Forall (fun c => c <> sep) s -> split sep s = [s].
Proof.
  induction 1 as [|c s Hc _ IH]; [reflexivity|].
  cbn [split]. rewrite IH.
  destruct (N.eqb_spec c sep); [contradiction|reflexivity].
Qed.

(** ** summary_generator.py: the summarizers *)

Section SummaryFacts.
Import Summary.

Lemma apply_max_length_none (summary : str) :
  apply_max_length summary None = summary.
Proof. reflexivity. Qed.

(** From 3 on, a [max_length] below the length cuts to exactly
    [max_length] characters. *)
Lemma apply_max_length_cut (summary : str) (m : Z) :
  3 <= m -> m < len summary ->
  apply_max_length summary (Some m) = slice_to (m - 3) summary ++ ellipsis
  /\ len (apply_max_length summary (Some m)) = m.
Proof.
  intros H3 Hlt. unfold apply_max_length.
  destruct (Z.eqb_spec m 0); [lia|].
  destruct (Z.ltb_spec m (len summary)); [|lia].
  cbn [negb andb]. split; [reflexivity|].
  rewrite len_app, len_ellipsis, slice_to_len; lia.
Qed.

(** With a sentence to work on, each of the first two summarizers is its
    natural summary passed through the [max_length] lines. *)
Lemma brief_natural (text : str) (max_length : option Z) :
  sentences text <> [] ->
  generate_brief_summary text max_length
  = apply_max_length (generate_brief_summary text None) max_length.
Proof.
  unfold generate_brief_summary.
  destruct (sentences text) as [|s0 [|s1 [|s2 rest]]];
    intros Hne; [congruence|reflexivity..].
Qed.

Lemma detailed_natural (text : str) (max_length : option Z) :
  sentences text <> [] ->
  generate_detailed_summary text max_length
  = apply_max_length (generate_detailed_summary text None) max_length.
Proof.
  unfold generate_detailed_summary.
  destruct (sentences text); [congruence|reflexivity].
Qed.

(** What the truncation loop keeps, joined by newlines, leaves room for
    the three dots. *)
Lemma truncated_points_fit (points : list str) (current_length m : Z) :
  truncated_points points current_length m <> [] ->
  current_length + len (join newline (truncated_points points current_length m)) + 1
  <= m - 3.
Proof.
  revert current_length.
  induction points as [|point rest IH]; intros current_length; [done|].
  cbn [truncated_points].
  destruct (Z.leb_spec (current_length + len point + 1) (m - 3)) as [Hfit|]; [|done].
  intros _. specialize (IH (current_length + len point + 1)).
  destruct (truncated_points rest (current_length + len point + 1) m) as [|k kept].
  - cbn [join]. lia.
  - change (join newline (point :: k :: kept))
      with (point ++ newline ++ join newline (k :: kept)).
    rewrite !len_app. change (len newline) with 1.
    assert (k :: kept <> []) as Hne by done. specialize (IH Hne). lia.
Qed.

Lemma truncated_points_len (points : list str) (m : Z) :
  3 <= m -> len (join newline (truncated_points points 0 m) ++ ellipsis) <= m.
Proof.
  intros H3. rewrite len_app, len_ellipsis.
  pose proof (truncated_points_fit points 0 m) as Hfit.
  destruct (truncated_points points 0 m) as [|k kept].
  - change (len (join newline [])) with 0. lia.
  - assert (k :: kept <> []) as Hne by done. specialize (Hfit Hne).
    pose proof (len_nonneg (join newline (k :: kept))). lia.
Qed.

(** The sentences of a text without a period that is already stripped. *)
Lemma sentences_single (text : str) :
  Forall (fun c => c <> dot) text -> strip text = text -> text <> [] ->
  sentences text = [text].
Proof.
  intros Hdot Hstrip Hne. unfold sentences.
  rewrite split_without by assumption.
  cbn. rewrite Hstrip. destruct text; [congruence|reflexivity].
Qed.

End SummaryFacts.

(** C7: for the text "A. B. C." the sentences are A, B and C (split on
    the period, stripped, empty fragments dropped), and the brief summary
    without [max_length] is the first and the last of them joined by
    ". ", that is "A. C". The last clause says the same of every text
    with three sentences or more. *)
Theorem brief_summary_first_and_last :
  Summary.sentences (py "A. B. C.") = [py "A"; py "B"; py "C"]
  /\ Summary.generate_brief_summary (py "A. B. C.") None = py "A. C"
  /\ forall text s0 s1 s2 rest,
       Summary.sentences text = s0 :: s1 :: s2 :: rest ->
       Summary.generate_brief_summary text None
       = s0 ++ py ". " ++ List.last rest s2.
Proof.
  split; [reflexivity|]. split; [reflexivity|].
  intros text s0 s1 s2 rest Hs.
  unfold Summary.generate_brief_summary. rewrite Hs.
  cbn [Summary.apply_max_length]. do 2 f_equal.
  rewrite !last_cons. reflexivity.
Qed.

(** C6, as stated, fails on the detailed summary: for the single
    sentence "Hello" the brief summary is "Hello" but the detailed summary
    is "Hello." (the join is followed by [+ '.']). *)
Lemma detailed_summary_adds_period :
  Summary.generate_brief_summary (py "Hello") None = py "Hello"
  /\ Summary.generate_detailed_summary (py "Hello") None = py "Hello."
  /\ Summary.generate_detailed_summary (py "Hello") None <> py "Hello".
Proof. split; [reflexivity|]. split; [reflexivity|]. discriminate. Qed.

(** C6, amended: for a text that is one sentence (no period, non-empty,
    no white space around it) and no [max_length], the brief summary is
    the text itself and the detailed summary is the text followed by a
    period. *)
Theorem single_sentence_summaries (text : str) :
  Forall (fun c => c <> dot) text -> strip text = text -> text <> [] ->
  Summary.generate_brief_summary text None = text
  /\ Summary.generate_detailed_summary text None = text ++ py ".".
Proof.
  intros Hdot Hstrip Hne.
  pose proof (sentences_single text Hdot Hstrip Hne) as Hs.
  unfold Summary.generate_brief_summary, Summary.generate_detailed_summary.
  rewrite Hs. split; reflexivity.
Qed.

Lemma single_sentence_summaries_witness :
  Summary.generate_brief_summary (py "Hello world") None = py "Hello world"
  /\ Summary.generate_detailed_summary (py "Hello world") None = py "Hello world.".
Proof.
  apply (single_sentence_summaries (py "Hello world")).
  - apply (bool_decide_unpack _). vm_compute. exact I.
  - reflexivity.
  - discriminate.
Defined.

(** C4, as stated, fails at [max_length = 0]: [if max_length and ...]
    reads 0 as no limit, so the summary comes back whole, longer than 0
    and without the dots. *)
Lemma max_length_zero_is_no_limit :
  0 < len (Summary.generate_brief_summary (py "Hello world") None)
  /\ Summary.generate_brief_summary (py "Hello world") (Some 0) = py "Hello world"
  /\ endswith (Summary.generate_brief_summary (py "Hello world") (Some 0)) ellipsis = false
  /\ ~ len (Summary.generate_brief_summary (py "Hello world") (Some 0)) <= 0.
Proof.
  repeat split; try reflexivity.
  intros Hle. vm_compute in Hle. apply Hle. reflexivity.
Qed.

(** Two more inputs at which the summary is longer than [max_length]: a
    [max_length] below 3 makes the slice index negative, and a text
    without a sentence is answered by the fixed notice. *)
Example max_length_two :
  Summary.generate_brief_summary (py "Hello world") (Some 2) = py "Hello worl...".
Proof. reflexivity. Qed.

Example max_length_no_sentence :
  Summary.generate_brief_summary (py " . ") (Some 10) = py "No content to summarize.".
Proof. reflexivity. Qed.

(** C4, amended: for a text with at least one sentence and a
    [max_length] of 3 or more that is shorter than the natural summary,
    the brief and the detailed summary are the first [max_length - 3]
    characters of the natural summary followed by "...", exactly
    [max_length] characters long; the bullet-point summary ends with "..."
    and is at most [max_length] characters long. A [max_length] of 0 is
    no limit: the summary is the natural one. *)
Theorem max_length_truncates (text : str) (m : Z) :
  Summary.sentences text <> [] -> 3 <= m ->
  (m < len (Summary.generate_brief_summary text None) ->
     Summary.generate_brief_summary text (Some m)
     = slice_to (m - 3) (Summary.generate_brief_summary text None) ++ ellipsis
     /\ len (Summary.generate_brief_summary text (Some m)) = m)
  /\ (m < len (Summary.generate_detailed_summary text None) ->
        Summary.generate_detailed_summary text (Some m)
        = slice_to (m - 3) (Summary.generate_detailed_summary text None) ++ ellipsis
        /\ len (Summary.generate_detailed_summary text (Some m)) = m)
  /\ (m < len (Summary.generate_bullet_points_summary text None) ->
        (exists kept,
            Summary.generate_bullet_points_summary text (Some m) = kept ++ ellipsis)
        /\ len (Summary.generate_bullet_points_summary text (Some m)) <= m)
  /\ Summary.generate_brief_summary text (Some 0)
     = Summary.generate_brief_summary text None
  /\ Summary.generate_detailed_summary text (Some 0)
     = Summary.generate_detailed_summary text None
  /\ Summary.generate_bullet_points_summary text (Some 0)
     = Summary.generate_bullet_points_summary text None.
Proof.
  intros Hs H3. split; [|split; [|split; [|split; [|split]]]].
  - intros Hlt. rewrite (brief_natural text (Some m)) by assumption.
    apply apply_max_length_cut; assumption.
  - intros Hlt. rewrite (detailed_natural text (Some m)) by assumption.
    apply apply_max_length_cut; assumption.
  - unfold Summary.generate_bullet_points_summary.
    destruct (Summary.sentences text) as [|s0 rest]; [congruence|].
    cbv zeta. intros Hlt.
    destruct (Z.eqb_spec m 0); [lia|].
    destruct (Z.ltb_spec m (len (join newline (Summary.bullet_point <$>
      slice_to (Z.min 5 (len (s0 :: rest))) (s0 :: rest))))); [|lia].
    cbn [negb andb]. split; [eexists; reflexivity|].
    apply truncated_points_len. assumption.
  - rewrite (brief_natural text (Some 0)) by assumption. reflexivity.
  - rewrite (detailed_natural text (Some 0)) by assumption. reflexivity.
  - unfold Summary.generate_bullet_points_summary.
    destruct (Summary.sentences text); reflexivity.
Qed.

Lemma max_length_truncates_witness :
  len (Summary.generate_brief_summary (py "Hello world. Second one. Third") (Some 10))
  = 10
  /\ len (Summary.generate_detailed_summary
            (py "Hello world. Second one. Third") (Some 10)) = 10
  /\ len (Summary.generate_bullet_points_summary
            (py "Hello world. Second one. Third") (Some 20)) <= 20.
Proof.
  destruct (max_length_truncates (py "Hello world. Second one. Third") 10)
    as (Hbrief & Hdetailed & _); [vm_compute; discriminate|lia|].
  destruct (max_length_truncates (py "Hello world. Second one. Third") 20)
    as (_ & _ & Hbullet & _); [vm_compute; discriminate|lia|].
  split; [exact (proj2 (Hbrief eq_refl))|].
  split; [exact (proj2 (Hdetailed eq_refl))|].
  exact (proj2 (Hbullet eq_refl)).
Defined.

(** ** product-search-api/app.py *)

Section ProductSearchFacts.
Context `{PyRuntime}.
Import ProductSearch.

(** [lower] on the ASCII strings of the catalog and of the query. *)
Lemma lower_py (s : string) :
  is_ascii (py s) = true -> lower (py s) = ascii_lower <$> py s.
Proof. apply lower_ascii. Qed.

(** The search for "phone" keeps the first and the last product of the
    catalog: "phone" is a substring of "headphones" too. *)
Lemma search_phone :
  search_products (query_only "phone")
  = {| ProductSearchResponse.products :=
         [product "1" "Wireless Headphones" "High-quality wireless headphones"
            99.99%float "Electronics" true;
          product "5" "Smartphone" "Latest model smartphone"
            699.99%float "Electronics" true];
       ProductSearchResponse.total_count := 2;
       ProductSearchResponse.query := py "phone" |}.
Proof.
  unfold search_products, MOCK_PRODUCTS, keeps, product, query_only.
  cbn [List.filter ProductSearchRequest.query ProductSearchRequest.category
       ProductSearchRequest.min_price ProductSearchRequest.max_price
       ProductSearchRequest.limit Product.name Product.description
       Product.category Product.price truthy_str truthy_float andb].
  rewrite !lower_py by reflexivity.
  vm_compute. reflexivity.
Qed.

End ProductSearchFacts.

(** C5, as stated, fails: under no interpreter does the search for
    "phone" return the Smartphone alone with [total_count = 1]. *)
Lemma phone_is_not_smartphone_alone :
  ~ exists rt : PyRuntime,
      let response := ProductSearch.search_products (query_only "phone") in
      Product.name <$> ProductSearchResponse.products response = [py "Smartphone"]
      /\ ProductSearchResponse.total_count response = 1.
Proof.
  intros [rt [Hproducts Hcount]].
  rewrite search_phone in Hcount. discriminate Hcount.
Qed.

(** C5, amended: the search with query "phone", no category filter, no
    price filters and the default limit of 10 returns two products of the
    5-item catalog, "Wireless Headphones" and "Smartphone" in that order,
    with [total_count = 2]. *)
Theorem phone_search_returns_two `{PyRuntime} :
  let response := ProductSearch.search_products (query_only "phone") in
  Product.name <$> ProductSearchResponse.products response
  = [py "Wireless Headphones"; py "Smartphone"]
  /\ Product.id <$> ProductSearchResponse.products response = [py "1"; py "5"]
  /\ ProductSearchResponse.total_count response = 2
  /\ ProductSearchResponse.query response = py "phone"
  /\ length ProductSearch.MOCK_PRODUCTS = 5%nat.
Proof.
  cbv zeta. rewrite search_phone. repeat split; reflexivity.
Qed.

(** C10: a [min_price] or [max_price] equal to 0 is read as an absent
    filter. Whatever the query, the category, the other price bound and
    the limit, the response with [max_price = 0] is the response with
    [max_price] absent, and likewise for [min_price]; with both bounds 0
    the search is the search without price filters. *)
Theorem zero_price_is_no_filter `{PyRuntime} (query : str)
    (category : option str) (other : option float) (limit : option Z) :
  ProductSearch.search_products
    {| ProductSearchRequest.query := query;
       ProductSearchRequest.category := category;
       ProductSearchRequest.min_price := other;
       ProductSearchRequest.max_price := Some 0%float;
       ProductSearchRequest.limit := limit |}
  = ProductSearch.search_products
      {| ProductSearchRequest.query := query;
         ProductSearchRequest.category := category;
         ProductSearchRequest.min_price := other;
         ProductSearchRequest.max_price := None;
         ProductSearchRequest.limit := limit |}
  /\ ProductSearch.search_products
       {| ProductSearchRequest.query := query;
          ProductSearchRequest.category := category;
          ProductSearchRequest.min_price := Some 0%float;
          ProductSearchRequest.max_price := other;
          ProductSearchRequest.limit := limit |}
     = ProductSearch.search_products
         {| ProductSearchRequest.query := query;
            ProductSearchRequest.category := category;
            ProductSearchRequest.min_price := None;
            ProductSearchRequest.max_price := other;
            ProductSearchRequest.limit := limit |}.
Proof.
  split.
  - unfold ProductSearch.search_products.
    cbn [ProductSearchRequest.query ProductSearchRequest.limit].
    assert (forall p,
      ProductSearch.keeps
        {| ProductSearchRequest.query := query;
           ProductSearchRequest.category := category;
           ProductSearchRequest.min_price := other;
           ProductSearchRequest.max_price := Some 0%float;
           ProductSearchRequest.limit := limit |} p
      = ProductSearch.keeps
          {| ProductSearchRequest.query := query;
             ProductSearchRequest.category := category;
             ProductSearchRequest.min_price := other;
             ProductSearchRequest.max_price := None;
             ProductSearchRequest.limit := limit |} p) as Hkeeps
      by (intros p; reflexivity).
    rewrite (List.filter_ext _ _ Hkeeps). reflexivity.
  - unfold ProductSearch.search_products.
    cbn [ProductSearchRequest.query ProductSearchRequest.limit].
    assert (forall p,
      ProductSearch.keeps
        {| ProductSearchRequest.query := query;
           ProductSearchRequest.category := category;
           ProductSearchRequest.min_price := Some 0%float;
           ProductSearchRequest.max_price := other;
           ProductSearchRequest.limit := limit |} p
      = ProductSearch.keeps
          {| ProductSearchRequest.query := query;
             ProductSearchRequest.category := category;
             ProductSearchRequest.min_price := None;
             ProductSearchRequest.max_price := other;
             ProductSearchRequest.limit := limit |} p) as Hkeeps
      by (intros p; reflexivity).
    rewrite (List.filter_ext _ _ Hkeeps). reflexivity.
Qed.

(** ** The parameter loop *)

Section ParameterFacts.
Import FunctionCall.

Lemma named_value_get (param : pyval) (name : str) (value default : pyval) :
  named_value param = Some (name, value) ->
  get param (py "name") default = Ok (VStr name)
  /\ get param (py "value") default = Ok value.
Proof.
  destruct param as [| | | | |l|d]; try discriminate.
  unfold named_value, get.
  destruct (lookup_item (py "name") d) as [[| | | |n| |]|]; try discriminate.
  destruct (lookup_item (py "value") d) as [v|]; try discriminate.
  intros [= <- <-]. split; reflexivity.
Qed.

Lemma set_parameter_named (parameters : pydict) (param : pyval)
    (name : str) (value : pyval) :
  named_value param = Some (name, value) ->
  set_parameter parameters param = Ok (<[KStr name := value]> parameters).
Proof.
  intros Hnamed. unfold set_parameter.
  destruct (named_value_get param name value (VStr []) Hnamed) as [-> ->].
  reflexivity.
Qed.

(** On well-formed entries the loop is a fold of insertions. *)
Lemma for_each_set_parameter (params : list pyval)
    (entries : list (str * pyval)) (parameters : pydict) :
  mapM named_value params = Some entries ->
  for_each set_parameter params parameters
  = Ok (foldl (fun d nv => <[KStr nv.1 := nv.2]> d) parameters entries).
Proof.
  rewrite mapM_Some. intros Hall. revert parameters.
  induction Hall as [|param [name value] params entries Hnamed _ IH];
    intros parameters; [reflexivity|].
  cbn [for_each foldl]. rewrite (set_parameter_named _ _ _ _ Hnamed).
  cbn [bind]. apply IH.
Qed.

Lemma lookup_fold_insert (entries : list (str * pyval)) (parameters : pydict)
    (name : str) :
  foldl (fun d nv => <[KStr nv.1 := nv.2]> d) parameters entries !! KStr name
  = match last_write_wins name entries with
    | Some v => Some v
    | None => parameters !! KStr name
    end.
Proof.
  revert parameters. induction entries as [|[n v] rest IH]; intros parameters;
    [reflexivity|].
  cbn [foldl last_write_wins fst snd]. rewrite IH.
  destruct (last_write_wins name rest); [reflexivity|].
  case_bool_decide as Hn.
  - subst n. apply lookup_insert_eq.
  - apply lookup_insert_ne. congruence.
Qed.

Lemma parameters_dict_named (params : list pyval)
    (entries : list (str * pyval)) :
  mapM named_value params = Some entries ->
  exists parameters : pydict,
    parameters_dict (VList params) = Ok parameters
    /\ forall name, parameters !! KStr name = last_write_wins name entries.
Proof.
  intros Hnamed. eexists. split.
  - unfold parameters_dict. cbn [iterate bind].
    apply for_each_set_parameter. exact Hnamed.
  - intros name. rewrite lookup_fold_insert.
    destruct (last_write_wins name entries); [reflexivity|].
    apply lookup_empty.
Qed.

End ParameterFacts.

(** C3: on a [parameters] list of name/value entries the handlers'
    loop succeeds, and the dictionary it builds maps each name to the
    value of the last entry with that name: a later entry overwrites an
    earlier one. The summary generator and the text processor run the
    same loop. *)
Theorem parameters_last_write_wins (parameters_list : list pyval)
    (entries : list (str * pyval)) :
  mapM named_value parameters_list = Some entries ->
  exists parameters : pydict,
    FunctionCall.parameters_dict (VList parameters_list) = Ok parameters
    /\ forall name, parameters !! KStr name = last_write_wins name entries.
Proof.
  intros Hnamed.
  exists (foldl (fun d nv => <[KStr nv.1 := nv.2]> d) ∅ entries). split.
  - unfold FunctionCall.parameters_dict. cbn [iterate bind].
    apply for_each_set_parameter. exact Hnamed.
  - intros name. rewrite lookup_fold_insert.
    destruct (last_write_wins name entries) as [value|]; [reflexivity|].
    apply lookup_empty.
Qed.

(** The spec's example: [[{name: x, value: 1}, {name: x, value: 2}]]
    gives "2" for "x". *)
Lemma parameters_last_write_wins_witness :
  exists parameters : pydict,
    FunctionCall.parameters_dict
      (VList [VDict [(py "name", VStr (py "x")); (py "value", VStr (py "1"))];
              VDict [(py "name", VStr (py "x")); (py "value", VStr (py "2"))]])
    = Ok parameters
    /\ parameters !! KStr (py "x") = Some (VStr (py "2")).
Proof.
  destruct (parameters_last_write_wins
              [VDict [(py "name", VStr (py "x")); (py "value", VStr (py "1"))];
               VDict [(py "name", VStr (py "x")); (py "value", VStr (py "2"))]]
              [(py "x", VStr (py "1")); (py "x", VStr (py "2"))] eq_refl)
    as (parameters & Hdict & Hlookup).
  exists parameters. split; [exact Hdict|].
  rewrite Hlookup. reflexivity.
Defined.

(** ** The envelopes *)

(** Case analysis along a handler body: every [match], [if] and bind of
    a hypothesis that equates the body with a result. *)
Ltac step_body H :=
  match type of H with
  | context [bind ?c _] =>
      let E := fresh "E" in destruct c eqn:E; cbn [bind] in H
  | context [match ?x with _ => _ end] =>
      let E := fresh "E" in destruct x eqn:E
  | context [if ?b then _ else _] =>
      let E := fresh "E" in destruct b eqn:E
  end.

Ltac envelope_shape :=
  first [ left; do 3 eexists; reflexivity
        | right; do 3 eexists; reflexivity ].

Section EnvelopeFacts.
Context `{PyRuntime} `{S3Client}.
Import FunctionCall.

Lemma create_error_response_is_failure ag fn msg details :
  is_failure (create_error_response ag fn msg details).
Proof. do 3 eexists. reflexivity. Qed.

Lemma create_success_response_is_success ag fn result :
  is_success (create_success_response ag fn result).
Proof. do 3 eexists. reflexivity. Qed.

Lemma generate_summary_try_envelope parameters ag fn response :
  Summary.generate_summary_try parameters ag fn = Ok response ->
  is_success response \/ is_failure response.
Proof.
  unfold Summary.generate_summary_try. cbv zeta. intros Htry.
  repeat step_body Htry; try discriminate;
    injection Htry as Hr; rewrite <- Hr; envelope_shape.
Qed.

Lemma generate_summary_envelope parameters ag fn :
  (is_success (Summary.generate_summary parameters ag fn)
   \/ is_failure (Summary.generate_summary parameters ag fn))
  /\ forall e, Summary.generate_summary_try parameters ag fn = Raise e ->
               is_failure (Summary.generate_summary parameters ag fn).
Proof.
  unfold Summary.generate_summary.
  destruct (Summary.generate_summary_try parameters ag fn) as [response|e] eqn:Htry.
  - split; [|discriminate].
    eapply generate_summary_try_envelope. exact Htry.
  - split; [right|intros ? _]; apply create_error_response_is_failure.
Qed.

Lemma process_text_try_envelope parameters ag fn response :
  TextProcessor.process_text_try parameters ag fn = Ok response ->
  is_success response \/ is_failure response.
Proof.
  unfold TextProcessor.process_text_try. cbv zeta. intros Htry.
  repeat step_body Htry; try discriminate;
    injection Htry as Hr; rewrite <- Hr; envelope_shape.
Qed.

Lemma process_text_envelope parameters ag fn :
  (is_success (TextProcessor.process_text parameters ag fn)
   \/ is_failure (TextProcessor.process_text parameters ag fn))
  /\ forall e, TextProcessor.process_text_try parameters ag fn = Raise e ->
               is_failure (TextProcessor.process_text parameters ag fn).
Proof.
  unfold TextProcessor.process_text.
  destruct (TextProcessor.process_text_try parameters ag fn) as [response|e] eqn:Htry.
  - split; [|discriminate].
    eapply process_text_try_envelope. exact Htry.
  - split; [right|intros ? _]; apply create_error_response_is_failure.
Qed.

Lemma summary_handler_envelope (event : list (str * pyval)) :
  exists response,
    Summary.lambda_handler (VDict event) = Ok response
    /\ (is_success response \/ is_failure response)
    /\ forall e, Summary.lambda_handler_try (VDict event) = Raise e ->
                 is_failure response.
Proof.
  unfold Summary.lambda_handler.
  destruct (Summary.lambda_handler_try (VDict event)) as [response|e] eqn:Htry.
  - exists response. split; [reflexivity|]. split; [|discriminate].
    unfold Summary.lambda_handler_try in Htry. cbn [get bind] in Htry.
    repeat step_body Htry; try discriminate; injection Htry as Hr; rewrite <- Hr.
    + apply generate_summary_envelope.
    + right. apply create_error_response_is_failure.
  - cbn [get bind]. eexists. split; [reflexivity|].
    split; [right|intros ? _]; apply create_error_response_is_failure.
Qed.

Lemma text_handler_envelope (event : list (str * pyval)) :
  exists response,
    TextProcessor.lambda_handler (VDict event) = Ok response
    /\ (is_success response \/ is_failure response)
    /\ forall e, TextProcessor.lambda_handler_try (VDict event) = Raise e ->
                 is_failure response.
Proof.
  unfold TextProcessor.lambda_handler.
  destruct (TextProcessor.lambda_handler_try (VDict event)) as [response|e] eqn:Htry.
  - exists response. split; [reflexivity|]. split; [|discriminate].
    unfold TextProcessor.lambda_handler_try in Htry. cbn [get bind] in Htry.
    repeat step_body Htry; try discriminate; injection Htry as Hr; rewrite <- Hr.
    + apply process_text_envelope.
    + right. apply create_error_response_is_failure.
  - cbn [get bind]. eexists. split; [reflexivity|].
    split; [right|intros ? _]; apply create_error_response_is_failure.
Qed.

Lemma order_handler_envelope (event : pyval) :
  exists statusCode body,
    OrderLookup.handler event = OrderLookup.response statusCode body
    /\ (statusCode = 200 \/ statusCode = 400 \/ statusCode = 500)
    /\ forall e, OrderLookup.handler_try event = Raise e -> statusCode = 500.
Proof.
  unfold OrderLookup.handler.
  destruct (OrderLookup.handler_try event) as [response|e] eqn:Htry.
  - unfold OrderLookup.handler_try in Htry.
    repeat step_body Htry; try discriminate; injection Htry as Hr; rewrite <- Hr;
      do 2 eexists; (split; [reflexivity|]); (split; [|discriminate]); lia.
  - do 2 eexists. split; [reflexivity|]. split; [lia|reflexivity].
Qed.

End EnvelopeFacts.

(** C1, as stated, fails: on an event that is not a dictionary ([null],
    a list) the [try] of the function-call handlers faults at
    [event.get], and the [except] branch calls [event.get] again: the
    [AttributeError] leaves [lambda_handler], and no envelope is
    returned. *)
Lemma non_dictionary_event_raises :
  @Summary.lambda_handler Example.runtime VNone
  = Raise (AttributeError VNone "get")
  /\ @TextProcessor.lambda_handler Example.runtime Example.s3
       (VList [VStr (py "generate_summary")])
     = Raise (AttributeError (VList [VStr (py "generate_summary")]) "get")
  /\ ~ (forall event, exists response,
          @Summary.lambda_handler Example.runtime event = Ok response).
Proof.
  split; [reflexivity|]. split; [reflexivity|].
  intros Hall. destruct (Hall VNone) as [response Hresponse].
  vm_compute in Hresponse. discriminate Hresponse.
Qed.

(** C1, amended: every entry point answers an event of its declared type
    with one envelope and lets no exception out. For the summary
    generator and the text processor, on an event that is a dictionary
    (the annotation [Dict[str, Any]]), [lambda_handler] returns a
    function-call envelope, and a fault in the body of its [try] gives
    one with [responseState] FAILURE; so do [generate_summary] and
    [process_text] for a fault in theirs. The order-lookup [handler]
    returns a flat envelope with status 200, 400 or 500 on every event,
    and 500 when the body of its [try] faults. *)
Theorem handlers_never_raise `{PyRuntime} `{S3Client} :
  (forall event : list (str * pyval),
      exists response,
        Summary.lambda_handler (VDict event) = Ok response
        /\ (is_success response \/ is_failure response)
        /\ forall e, Summary.lambda_handler_try (VDict event) = Raise e ->
                     is_failure response)
  /\ (forall parameters action_group function_name e,
         Summary.generate_summary_try parameters action_group function_name
         = Raise e ->
         is_failure (Summary.generate_summary parameters action_group function_name))
  /\ (forall event : list (str * pyval),
         exists response,
           TextProcessor.lambda_handler (VDict event) = Ok response
           /\ (is_success response \/ is_failure response)
           /\ forall e, TextProcessor.lambda_handler_try (VDict event) = Raise e ->
                        is_failure response)
  /\ (forall parameters action_group function_name e,
         TextProcessor.process_text_try parameters action_group function_name
         = Raise e ->
         is_failure (TextProcessor.process_text parameters action_group function_name))
  /\ (forall event : pyval,
         exists statusCode body,
           OrderLookup.handler event = OrderLookup.response statusCode body
           /\ (statusCode = 200 \/ statusCode = 400 \/ statusCode = 500)
           /\ forall e, OrderLookup.handler_try event = Raise e ->
                        statusCode = 500).
Proof.
  split; [apply summary_handler_envelope|].
  split; [intros; eapply generate_summary_envelope; eassumption|].
  split; [apply text_handler_envelope|].
  split; [intros; eapply process_text_envelope; eassumption|].
  apply order_handler_envelope.
Qed.

(** Faults do occur, and are answered: a parameter that is not a
    dictionary, a [text] that is a number, a missing S3 object, an event
    that is not a dictionary. *)
Example fault_in_the_parameter_loop :
  @Summary.lambda_handler_try Example.runtime
    (VDict [(py "function", VStr (py "generate_summary"));
            (py "parameters", VList [VInt 5])])
  = Raise (AttributeError (VInt 5) "get")
  /\ @Summary.lambda_handler Example.runtime
       (VDict [(py "function", VStr (py "generate_summary"));
               (py "parameters", VList [VInt 5])])
     = Ok (@FunctionCall.create_error_response Example.runtime
             (VStr []) (VStr (py "generate_summary")) (py "Internal server error")
             (VStr (py "'int' object has no attribute 'get'"))).
Proof. split; reflexivity. Qed.

Example fault_in_generate_summary :
  @Summary.generate_summary_try Example.runtime
    {[ KStr (py "text") := VInt 5 ]} (VStr []) (VStr (py "generate_summary"))
  = Raise (TypeError (py "object of type 'int' has no len()")).
Proof. vm_compute. reflexivity. Qed.

Example fault_in_process_text :
  @TextProcessor.process_text_try Example.runtime Example.s3
    {[ KStr (py "s3_bucket") := VStr (py "docs");
       KStr (py "s3_key") := VStr (py "absent.txt") ]}
    (VStr []) (VStr (py "process_text"))
  = Raise (Exn "NoSuchKey"
             (py "An error occurred (NoSuchKey) when calling the GetObject operation: The specified key does not exist.")).
Proof. vm_compute. reflexivity. Qed.

Example fault_in_order_lookup :
  @OrderLookup.handler_try Example.runtime (VList [])
  = Raise (AttributeError (VList []) "get")
  /\ @OrderLookup.handler Example.runtime (VList [])
     = @OrderLookup.response Example.runtime 500
         (VDict [(py "error", VStr (py "Internal server error"))]).
Proof. split; reflexivity. Qed.

(** An event that is not a dictionary is outside the annotation: the
    [except] branch of the function-call handlers calls [event.get]
    itself. *)
Example event_not_a_dictionary :
  @Summary.lambda_handler Example.runtime (VList [])
  = Raise (AttributeError (VList []) "get").
Proof. reflexivity. Qed.

(** ** The handlers on well-formed events *)

Section HandlerFacts.
Context `{PyRuntime} `{S3Client}.
Import FunctionCall.

Variables (event : list (str * pyval)) (params : list pyval)
          (entries : list (str * pyval)).
Hypothesis Hparameters : field event "parameters" (VList []) = VList params.
Hypothesis Hnamed : mapM named_value params = Some entries.

Lemma dict_get_named (parameters : pydict) (name : str) (default : pyval) :
  (forall name, parameters !! KStr name = last_write_wins name entries) ->
  dict_get parameters name default
  = from_option id default (last_write_wins name entries).
Proof. intros Hlookup. unfold dict_get. rewrite Hlookup. reflexivity. Qed.

(** The summary generator's [try] body, past the parameter loop. *)
Lemma summary_handler_named :
  exists parameters : pydict,
    (forall name, parameters !! KStr name = last_write_wins name entries)
    /\ Summary.lambda_handler (VDict event)
       = Ok (if eq_str (field event "function" (VStr [])) (py "generate_summary")
             then Summary.generate_summary parameters
                    (field event "actionGroup" (VStr []))
                    (field event "function" (VStr []))
             else create_error_response
                    (field event "actionGroup" (VStr []))
                    (field event "function" (VStr []))
                    (py "Unknown function: "
                        ++ str_of (field event "function" (VStr [])))
                    (VList [VStr (py "generate_summary")])).
Proof.
  destruct (parameters_dict_named params entries Hnamed)
    as (parameters & Hdict & Hlookup).
  exists parameters. split; [exact Hlookup|].
  unfold Summary.lambda_handler, Summary.lambda_handler_try.
  unfold field in *. cbn [get bind]. rewrite Hparameters, Hdict. cbn [bind].
  destruct (eq_str _ _); reflexivity.
Qed.

Lemma text_handler_named :
  exists parameters : pydict,
    (forall name, parameters !! KStr name = last_write_wins name entries)
    /\ TextProcessor.lambda_handler (VDict event)
       = Ok (if eq_str (field event "function" (VStr [])) (py "process_text")
             then TextProcessor.process_text parameters
                    (field event "actionGroup" (VStr []))
                    (field event "function" (VStr []))
             else create_error_response
                    (field event "actionGroup" (VStr []))
                    (field event "function" (VStr []))
                    (py "Unknown function: "
                        ++ str_of (field event "function" (VStr [])))
                    (VList [VStr (py "process_text")])).
Proof.
  destruct (parameters_dict_named params entries Hnamed)
    as (parameters & Hdict & Hlookup).
  exists parameters. split; [exact Hlookup|].
  unfold TextProcessor.lambda_handler, TextProcessor.lambda_handler_try.
  unfold field in *. cbn [get bind]. rewrite Hparameters, Hdict. cbn [bind].
  destruct (eq_str _ _); reflexivity.
Qed.

(** The order-lookup loop stops at the first entry named [order_id]. *)
Lemma find_order_id_named :
  OrderLookup.find_order_id params
  = Ok (from_option id VNone (first_value (py "order_id") entries)).
Proof.
  clear Hparameters. revert Hnamed. rewrite mapM_Some. intros Hall.
  induction Hall as [|param [name value] ps es Hparam _ IH]; [reflexivity|].
  cbn [OrderLookup.find_order_id first_value].
  destruct (named_value_get param name value VNone Hparam) as [-> ->].
  cbn [bind eq_str]. destruct (bool_decide (name = py "order_id")); [reflexivity|].
  exact IH.
Qed.

Lemma order_handler_named :
  OrderLookup.handler_try (VDict event)
  = let order_id := from_option id VNone (first_value (py "order_id") entries) in
    if negb (truthy order_id) then
      Ok (OrderLookup.response 400
            (VDict [(py "error", VStr (py "Missing required parameter: order_id"))]))
    else
      let* order_data := OrderLookup.lookup_order order_id in
      Ok (OrderLookup.response 200
            (VDict [(py "order", order_data);
                    (py "message",
                     VStr (py "Successfully retrieved order " ++ str_of order_id))])).
Proof.
  unfold OrderLookup.handler_try. unfold field in *. cbn [get bind].
  rewrite Hparameters. cbn [iterate bind]. rewrite find_order_id_named.
  reflexivity.
Qed.

End HandlerFacts.

(** The keys of the mock order table. *)
Lemma mock_orders_keys (order_id : str) :
  OrderLookup.mock_orders !! KStr order_id = None
  <-> order_id <> py "12345" /\ order_id <> py "67890".
Proof.
  unfold OrderLookup.mock_orders. split.
  - intros Hnone. split; intros ->;
      [rewrite lookup_insert_ne in Hnone by discriminate|];
      rewrite lookup_insert_eq in Hnone; discriminate.
  - intros [H1 H2]. rewrite !lookup_insert_ne by congruence.
    apply lookup_empty.
Qed.

(** C2: an event whose function name is not the one the handler
    supports (an absent name counts as the empty string) is answered by a
    failure envelope whose error is "Unknown function: <name>" and whose
    details are the list of the supported names: [generate_summary] for
    the summary generator, [process_text] for the text processor. *)
Theorem unknown_function_fails `{PyRuntime} `{S3Client}
    (event : list (str * pyval)) (params : list pyval)
    (entries : list (str * pyval)) (name : str) :
  field event "parameters" (VList []) = VList params ->
  mapM named_value params = Some entries ->
  field event "function" (VStr []) = VStr name ->
  (name <> py "generate_summary" ->
     Summary.lambda_handler (VDict event)
     = Ok (failure (field event "actionGroup" (VStr [])) (VStr name)
             (VDict [(py "error", VStr (py "Unknown function: " ++ name));
                     (py "details", VList [VStr (py "generate_summary")])])))
  /\ (name <> py "process_text" ->
        TextProcessor.lambda_handler (VDict event)
        = Ok (failure (field event "actionGroup" (VStr [])) (VStr name)
                (VDict [(py "error", VStr (py "Unknown function: " ++ name));
                        (py "details", VList [VStr (py "process_text")])]))).
Proof.
  intros Hparameters Hnamed Hfunction. split; intros Hname.
  - destruct (summary_handler_named event params entries Hparameters Hnamed)
      as (parameters & _ & ->).
    rewrite Hfunction. cbn [eq_str].
    rewrite bool_decide_eq_false_2 by exact Hname.
    rewrite str_of_str. reflexivity.
  - destruct (text_handler_named event params entries Hparameters Hnamed)
      as (parameters & _ & ->).
    rewrite Hfunction. cbn [eq_str].
    rewrite bool_decide_eq_false_2 by exact Hname.
    rewrite str_of_str. reflexivity.
Qed.

Lemma unknown_function_fails_witness :
  @Summary.lambda_handler Example.runtime
    (Example.event "docs" "summarise" [Example.parameter "text" "A. B. C."])
  = Ok (@failure Example.runtime (VStr (py "docs")) (VStr (py "summarise"))
          (VDict [(py "error", VStr (py "Unknown function: summarise"));
                  (py "details", VList [VStr (py "generate_summary")])]))
  /\ @TextProcessor.lambda_handler Example.runtime Example.s3
       (VDict [(py "actionGroup", VStr (py "docs"))])
     = Ok (@failure Example.runtime (VStr (py "docs")) (VStr [])
             (VDict [(py "error", VStr (py "Unknown function: "));
                     (py "details", VList [VStr (py "process_text")])])).
Proof.
  split.
  - apply (@unknown_function_fails Example.runtime Example.s3
             [(py "messageVersion", VStr (py "1.0"));
              (py "actionGroup", VStr (py "docs"));
              (py "function", VStr (py "summarise"));
              (py "parameters", VList [Example.parameter "text" "A. B. C."])]
             [Example.parameter "text" "A. B. C."]
             [(py "text", VStr (py "A. B. C."))] (py "summarise")
             eq_refl eq_refl eq_refl).
    discriminate.
  - apply (@unknown_function_fails Example.runtime Example.s3
             [(py "actionGroup", VStr (py "docs"))] [] [] []
             eq_refl eq_refl eq_refl).
    discriminate.
Defined.

(** C8: when the first entry named [order_id] carries a non-empty
    string that is not a key of the mock order table, the handler answers
    200 with the order object [{order_id, status: not_found, message}]:
    the order that is not found is a result, not a failure. *)
Theorem unknown_order_is_not_found `{PyRuntime}
    (event : list (str * pyval)) (params : list pyval)
    (entries : list (str * pyval)) (order_id : str) :
  field event "parameters" (VList []) = VList params ->
  mapM named_value params = Some entries ->
  first_value (py "order_id") entries = Some (VStr order_id) ->
  order_id <> [] ->
  OrderLookup.mock_orders !! KStr order_id = None ->
  OrderLookup.lookup_order (VStr order_id)
  = Ok (VDict [(py "order_id", VStr order_id);
               (py "status", VStr (py "not_found"));
               (py "message", VStr (py "Order not found in system"))])
  /\ OrderLookup.handler (VDict event)
     = OrderLookup.response 200
         (VDict [(py "order",
                  VDict [(py "order_id", VStr order_id);
                         (py "status", VStr (py "not_found"));
                         (py "message", VStr (py "Order not found in system"))]);
                 (py "message",
                  VStr (py "Successfully retrieved order " ++ order_id))]).
Proof.
  intros Hparameters Hnamed Hfirst Hnonempty Habsent.
  assert (OrderLookup.lookup_order (VStr order_id)
          = Ok (OrderLookup.not_found (VStr order_id))) as Hlookup.
  { unfold OrderLookup.lookup_order. cbn [key_of bind].
    rewrite Habsent. reflexivity. }
  split; [exact Hlookup|].
  unfold OrderLookup.handler.
  rewrite (order_handler_named event params entries Hparameters Hnamed).
  rewrite Hfirst. cbv zeta. cbn [from_option id truthy].
  destruct order_id as [|c rest]; [congruence|].
  cbn [nonempty negb]. rewrite Hlookup. cbn [bind].
  rewrite str_of_str. reflexivity.
Qed.

Lemma unknown_order_is_not_found_witness :
  @OrderLookup.handler Example.runtime
    (Example.event "orders" "lookup" [Example.parameter "order_id" "999"])
  = @OrderLookup.response Example.runtime 200
      (VDict [(py "order",
               VDict [(py "order_id", VStr (py "999"));
                      (py "status", VStr (py "not_found"));
                      (py "message", VStr (py "Order not found in system"))]);
              (py "message", VStr (py "Successfully retrieved order 999"))]).
Proof.
  apply (@unknown_order_is_not_found Example.runtime
           [(py "messageVersion", VStr (py "1.0"));
            (py "actionGroup", VStr (py "orders"));
            (py "function", VStr (py "lookup"));
            (py "parameters", VList [Example.parameter "order_id" "999"])]
           [Example.parameter "order_id" "999"]
           [(py "order_id", VStr (py "999"))] (py "999")
           eq_refl eq_refl eq_refl).
  - discriminate.
  - apply mock_orders_keys. split; discriminate.
Defined.

(** C9, as stated, fails on the text processor: with [s3_bucket] absent
    the answer is a failure envelope, but its message is "Missing required
    parameters", with the two names under [details], and not "Missing
    required parameter: s3_bucket". *)
Lemma text_processor_names_no_parameter :
  @TextProcessor.lambda_handler Example.runtime Example.s3
    (Example.event "docs" "process_text" [Example.parameter "s3_key" "notes.txt"])
  = Ok (@failure Example.runtime (VStr (py "docs")) (VStr (py "process_text"))
          (VDict [(py "error", VStr (py "Missing required parameters"));
                  (py "details",
                   VDict [(py "required",
                           VList [VStr (py "s3_bucket"); VStr (py "s3_key")])])]))
  /\ @TextProcessor.lambda_handler Example.runtime Example.s3
       (Example.event "docs" "process_text" [Example.parameter "s3_key" "notes.txt"])
     <> Ok (@failure Example.runtime (VStr (py "docs")) (VStr (py "process_text"))
              (VDict [(py "error",
                       VStr (py "Missing required parameter: s3_bucket"))])).
Proof. split; [vm_compute; reflexivity|]. vm_compute. discriminate. Qed.

(** C9, amended: on an event with well-formed parameters, a missing
    required parameter is answered by a failure envelope and no exception
    leaves the handler. The order-lookup handler answers 400 with
    "Missing required parameter: order_id" when no entry is named
    [order_id] or the first one is empty; the summary generator answers
    "Missing required parameter: text" when [text] is absent or empty; the
    text processor answers "Missing required parameters", with both names
    under [details], when [s3_bucket] or [s3_key] is absent or empty. *)
Theorem missing_required_parameter `{PyRuntime} `{S3Client}
    (event : list (str * pyval)) (params : list pyval)
    (entries : list (str * pyval)) :
  field event "parameters" (VList []) = VList params ->
  mapM named_value params = Some entries ->
  (absent_or_empty (first_value (py "order_id") entries) ->
     OrderLookup.handler (VDict event)
     = OrderLookup.response 400
         (VDict [(py "error", VStr (py "Missing required parameter: order_id"))]))
  /\ (field event "function" (VStr []) = VStr (py "generate_summary") ->
      absent_or_empty (last_write_wins (py "text") entries) ->
      Summary.lambda_handler (VDict event)
      = Ok (failure (field event "actionGroup" (VStr []))
              (VStr (py "generate_summary"))
              (VDict [(py "error", VStr (py "Missing required parameter: text"))])))
  /\ (field event "function" (VStr []) = VStr (py "process_text") ->
      absent_or_empty (last_write_wins (py "s3_bucket") entries)
      \/ absent_or_empty (last_write_wins (py "s3_key") entries) ->
      TextProcessor.lambda_handler (VDict event)
      = Ok (failure (field event "actionGroup" (VStr []))
              (VStr (py "process_text"))
              (VDict [(py "error", VStr (py "Missing required parameters"));
                      (py "details",
                       VDict [(py "required",
                               VList [VStr (py "s3_bucket");
                                      VStr (py "s3_key")])])]))).
Proof.
  intros Hparameters Hnamed. split; [|split].
  - unfold absent_or_empty. intros Hmissing.
    unfold OrderLookup.handler.
    rewrite (order_handler_named event params entries Hparameters Hnamed).
    cbv zeta.
    assert (truthy (from_option id VNone (first_value (py "order_id") entries))
            = false) as ->; [|reflexivity].
    destruct (first_value (py "order_id") entries); [exact Hmissing|reflexivity].
  - unfold absent_or_empty. intros Hfunction Hmissing.
    destruct (summary_handler_named event params entries Hparameters Hnamed)
      as (parameters & Hlookup & ->).
    rewrite Hfunction. cbn [eq_str].
    rewrite bool_decide_eq_true_2 by reflexivity.
    unfold Summary.generate_summary, Summary.generate_summary_try.
    rewrite !(dict_get_named entries parameters) by exact Hlookup.
    assert (truthy (from_option id (VStr []) (last_write_wins (py "text") entries))
            = false) as ->; [|reflexivity].
    destruct (last_write_wins (py "text") entries); [exact Hmissing|reflexivity].
  - unfold absent_or_empty. intros Hfunction Hmissing.
    destruct (text_handler_named event params entries Hparameters Hnamed)
      as (parameters & Hlookup & ->).
    rewrite Hfunction. cbn [eq_str].
    rewrite bool_decide_eq_true_2 by reflexivity.
    unfold TextProcessor.process_text, TextProcessor.process_text_try.
    rewrite !(dict_get_named entries parameters) by exact Hlookup.
    assert (negb (truthy (from_option id VNone
                            (last_write_wins (py "s3_bucket") entries)))
            || negb (truthy (from_option id VNone
                               (last_write_wins (py "s3_key") entries)))
            = true) as ->; [|reflexivity].
    destruct Hmissing as [Hmissing|Hmissing].
    + destruct (last_write_wins (py "s3_bucket") entries);
        [cbn [from_option id] in *; rewrite Hmissing|]; reflexivity.
    + rewrite orb_true_iff. right.
      destruct (last_write_wins (py "s3_key") entries);
        [cbn [from_option id] in *; rewrite Hmissing|]; reflexivity.
Qed.

Lemma missing_required_parameter_witness :
  @OrderLookup.handler Example.runtime
    (Example.event "docs" "generate_summary" [Example.parameter "text" ""])
  = @OrderLookup.response Example.runtime 400
      (VDict [(py "error", VStr (py "Missing required parameter: order_id"))])
  /\ @Summary.lambda_handler Example.runtime
       (Example.event "docs" "generate_summary" [Example.parameter "text" ""])
     = Ok (@failure Example.runtime (VStr (py "docs"))
             (VStr (py "generate_summary"))
             (VDict [(py "error", VStr (py "Missing required parameter: text"))])).
Proof.
  destruct (@missing_required_parameter Example.runtime Example.s3
              [(py "messageVersion", VStr (py "1.0"));
               (py "actionGroup", VStr (py "docs"));
               (py "function", VStr (py "generate_summary"));
               (py "parameters", VList [Example.parameter "text" ""])]
              [Example.parameter "text" ""]
              [(py "text", VStr [])] eq_refl eq_refl)
    as (Horder & Hsummary & _).
  split; [exact (Horder eq_refl)|exact (Hsummary eq_refl eq_refl)].
Defined.

(** * Further properties *)

(** ** Stripping and splitting *)

Lemma lstrip_Forall (P : N -> Prop) (s : str) :
  Forall P s -> Forall P (lstrip s).
Proof.
  induction 1 as [|c s Hc Hs IH]; [constructor|].
  cbn [lstrip]. destruct (isspace c); [exact IH|by constructor].
Qed.

Lemma strip_Forall (P : N -> Prop) (s : str) :
  Forall P s -> Forall P (strip s).
Proof.
  intros Hs. unfold strip, rstrip.
  apply lstrip_Forall, Forall_reverse, lstrip_Forall, Forall_reverse, Hs.
Qed.

(** What [lstrip] leaves starts with a character that is not white
    space. *)
Lemma lstrip_head (s : str) (c : N) (rest : str) :
  lstrip s = c :: rest -> isspace c = false.
Proof.
  induction s as [|a s IH]; [discriminate|].
  cbn [lstrip]. destruct (isspace a) eqn:Ha; [exact IH|].
  intros [= <- _]. exact Ha.
Qed.

Lemma lstrip_id (c : N) (rest : str) :
  isspace c = false -> lstrip (c :: rest) = c :: rest.
Proof. intros Hc. cbn [lstrip]. rewrite Hc. reflexivity. Qed.

(** [lstrip] takes a prefix away. *)
Lemma lstrip_suffix (s : str) : exists spaces, s = spaces ++ lstrip s.
Proof.
  induction s as [|a s [spaces IH]]; [by exists []|].
  cbn [lstrip]. destruct (isspace a).
  - exists (a :: spaces). cbn. by rewrite <- IH.
  - by exists [].
Qed.

Lemma lstrip_whitespace (s : str) :
  Forall (fun c => isspace c = true) s -> lstrip s = [].
Proof.
  induction 1 as [|c s Hc _ IH]; [reflexivity|].
  cbn [lstrip]. rewrite Hc. exact IH.
Qed.

Lemma strip_whitespace (s : str) :
  Forall (fun c => isspace c = true) s -> strip s = [].
Proof.
  intros Hs. unfold strip, rstrip.
  rewrite (lstrip_whitespace (reverse s)) by (by apply Forall_reverse).
  reflexivity.
Qed.

(** A string that ends with a character that is not white space is left
    alone by [rstrip]. *)
Lemma rstrip_id (s : str) (c : N) :
  isspace c = false -> rstrip (s ++ [c]) = s ++ [c].
Proof.
  intros Hc. unfold rstrip. rewrite reverse_app. cbn [reverse rev_append app].
  change (reverse [c]) with [c]. cbn [app].
  rewrite lstrip_id by exact Hc.
  change (c :: reverse s) with ([c] ++ reverse s).
  rewrite reverse_app, reverse_involutive. reflexivity.
Qed.

(** What [rstrip] leaves is empty or ends with a character that is not
    white space. *)
Lemma rstrip_last (s : str) :
  rstrip s = [] \/ exists front c, rstrip s = front ++ [c] /\ isspace c = false.
Proof.
  unfold rstrip. destruct (lstrip (reverse s)) as [|c rest] eqn:Hl; [by left|].
  right. exists (reverse rest), c. split.
  - by rewrite reverse_cons.
  - eapply lstrip_head. exact Hl.
Qed.

(** Stripping is idempotent. *)
Lemma strip_strip (s : str) : strip (strip s) = strip s.
Proof.
  unfold strip at 2 3.
  destruct (rstrip_last s) as [->|(front & c & -> & Hc)]; [reflexivity|].
  destruct (lstrip (front ++ [c])) as [|a rest] eqn:Hl; [reflexivity|].
  pose proof (lstrip_head _ _ _ Hl) as Ha.
  destruct (lstrip_suffix (front ++ [c])) as [spaces Hsplit].
  rewrite Hl in Hsplit.
  assert (exists front', a :: rest = front' ++ [c]) as [front' Hrest].
  { destruct (decide (rest = [])) as [->|Hne].
    - exists []. apply (f_equal reverse) in Hsplit.
      rewrite !reverse_app in Hsplit. cbn in Hsplit.
      injection Hsplit as -> _. reflexivity.
    - destruct (exists_last Hne) as (rest' & z & ->).
      exists (a :: rest'). cbn. f_equal.
      change (spaces ++ a :: rest' ++ [z])
        with (spaces ++ (a :: rest') ++ [z]) in Hsplit.
      rewrite app_assoc in Hsplit.
      apply app_inj_tail in Hsplit as [_ ->]. reflexivity. }
  unfold strip. rewrite Hrest, rstrip_id by exact Hc.
  rewrite <- Hrest. apply lstrip_id. exact Ha.
Qed.

(** The fragments of [split] hold the characters of the string other
    than the separator. *)
Lemma split_Forall (P : N -> Prop) (sep : N) (s : str) :
  Forall P s -> Forall (Forall (fun c => P c /\ c <> sep)) (split sep s).
Proof.
  induction 1 as [|c s Hc _ IH]; [repeat constructor|].
  cbn [split]. destruct (N.eqb_spec c sep) as [->|Hne].
  - constructor; [constructor|exact IH].
  - destruct (split sep s) as [|w ws]; [repeat constructor; done|].
    inversion IH as [|? ? Hw Hws]; subst.
    constructor; [constructor; done|exact Hws].
Qed.

Lemma split_nonempty (sep : N) (s : str) : split sep s <> [].
Proof.
  destruct s as [|c s]; [discriminate|].
  cbn [split]. destruct (c =? sep)%N; [discriminate|].
  destruct (split sep s); discriminate.
Qed.

(** [split] at the first separator. *)
Lemma split_app_sep (sep : N) (a rest : str) :
  Forall (fun c => c <> sep) a ->
  split sep (a ++ sep :: rest) = a :: split sep rest.
Proof.
  induction 1 as [|c a Hc _ IH].
  - cbn [app split]. rewrite N.eqb_refl. reflexivity.
  - cbn [app split]. rewrite IH.
    destruct (N.eqb_spec c sep); [contradiction|reflexivity].
Qed.

(** [sep.join(s.split(sep)) == s] *)
Lemma join_split (sep : N) (s : str) : join [sep] (split sep s) = s.
Proof.
  induction s as [|c s IH]; [reflexivity|].
  cbn [split]. destruct (c =? sep)%N eqn:Hc.
  - apply N.eqb_eq in Hc as ->.
    pose proof (split_nonempty sep s) as Hne.
    destruct (split sep s) as [|w ws]; [congruence|].
    change (join [sep] ([] :: w :: ws)) with (sep :: join [sep] (w :: ws)).
    by rewrite IH.
  - pose proof (split_nonempty sep s) as Hne.
    destruct (split sep s) as [|w ws]; [congruence|].
    destruct ws as [|w' ws]; cbn [join app] in *; by rewrite IH.
Qed.

(** [sep.join(parts).split(sep) == parts] when no part holds the
    separator and there is a part. *)
Lemma split_join (sep : N) (parts : list str) :
  parts <> [] ->
  Forall (Forall (fun c => c <> sep)) parts ->
  split sep (join [sep] parts) = parts.
Proof.
  intros Hne Hparts.
  induction Hparts as [|a parts Ha Hparts IH]; [congruence|].
  destruct parts as [|b parts].
  - cbn [join]. apply split_without, Ha.
  - change (join [sep] (a :: b :: parts))
      with (a ++ sep :: join [sep] (b :: parts)).
    rewrite split_app_sep by exact Ha. by rewrite IH.
Qed.

(** ** Strings without white space at the ends *)

Lemma len_lstrip (s : str) : len (lstrip s) <= len s.
Proof.
  destruct (lstrip_suffix s) as [spaces Hs].
  rewrite Hs at 2. rewrite len_app. pose proof (len_nonneg spaces). lia.
Qed.

Lemma len_strip (s : str) : len (strip s) <= len s.
Proof.
  unfold strip, rstrip.
  pose proof (len_lstrip (reverse (lstrip (reverse s)))) as H1.
  pose proof (len_lstrip (reverse s)) as H2.
  unfold len in *. rewrite !length_reverse in *. lia.
Qed.

(** A string is its own [strip] when it starts and ends with characters
    that are not white space. *)
Lemma strip_id (s : str) (c d : N) (rest front : str) :
  s = c :: rest -> s = front ++ [d] ->
  isspace c = false -> isspace d = false ->
  strip s = s.
Proof.
  intros Hhead Hlast Hc Hd. unfold strip.
  rewrite Hlast, rstrip_id by exact Hd. rewrite <- Hlast, Hhead.
  apply lstrip_id, Hc.
Qed.

Lemma strip_fixed (s : str) :
  strip s = s -> s <> [] ->
  exists c rest front d,
    s = c :: rest /\ s = front ++ [d]
    /\ isspace c = false /\ isspace d = false.
Proof.
  intros Hs Hne. destruct s as [|c rest]; [congruence|].
  exists c, rest.
  assert (isspace c = false) as Hc.
  { unfold strip in Hs. eapply lstrip_head. exact Hs. }
  destruct (rstrip_last (c :: rest)) as [Hr|(front & d & Hr & Hd)].
  - unfold strip in Hs. rewrite Hr in Hs. discriminate.
  - unfold strip in Hs. rewrite Hr in Hs.
    destruct (lstrip_suffix (front ++ [d])) as [spaces Hsuffix].
    rewrite Hs in Hsuffix.
    destruct (exists_last (l := c :: rest)) as (front' & d' & Hlast);
      [discriminate|].
    exists front', d'. split; [reflexivity|]. split; [exact Hlast|].
    split; [exact Hc|].
    rewrite Hlast, app_assoc in Hsuffix.
    apply app_inj_tail in Hsuffix as [_ ->]. exact Hd.
Qed.

(** White space in front of a stripped string is what [strip] takes
    away. *)
Lemma strip_spaces_app (spaces s : str) :
  Forall (fun c => isspace c = true) spaces ->
  strip s = s -> s <> [] ->
  strip (spaces ++ s) = s.
Proof.
  intros Hspaces Hs Hne.
  destruct (strip_fixed s Hs Hne) as (c & rest & front & d & Hhead & Hlast & Hc & Hd).
  unfold strip. rewrite Hlast, app_assoc, rstrip_id by exact Hd.
  rewrite <- app_assoc, <- Hlast, Hhead.
  clear -Hspaces Hc. induction Hspaces as [|a spaces Ha _ IH].
  - apply lstrip_id, Hc.
  - cbn [app lstrip]. rewrite Ha. exact IH.
Qed.

(** Joined strings start as the first one and end as the last one. *)
Lemma join_head (sep : str) (c : N) (rest : str) (parts : list str) :
  exists rest', join sep ((c :: rest) :: parts) = c :: rest'.
Proof. destruct parts; eexists; reflexivity. Qed.

Lemma join_last (sep : str) (parts : list str) (front : str) (d : N) :
  exists front', join sep (parts ++ [front ++ [d]]) = front' ++ [d].
Proof.
  induction parts as [|a parts [front' IH]]; [by exists front|].
  destruct parts as [|b parts].
  - exists (a ++ sep ++ front). cbn [app join]. by rewrite <- !app_assoc.
  - change (join sep ((a :: b :: parts) ++ [front ++ [d]]))
      with (a ++ sep ++ join sep ((b :: parts) ++ [front ++ [d]])).
    rewrite IH. exists (a ++ sep ++ front'). by rewrite <- !app_assoc.
Qed.

(** Stripped, non-empty strings joined are stripped. *)
Lemma strip_join (sep : str) (parts : list str) :
  Forall (fun s => s <> [] /\ strip s = s) parts ->
  strip (join sep parts) = join sep parts.
Proof.
  intros Hparts. destruct parts as [|a parts]; [reflexivity|].
  assert (exists c rest, join sep (a :: parts) = c :: rest /\ isspace c = false)
    as (c & rest & Hhead & Hc).
  { inversion Hparts as [|? ? [Hne Ha] _]; subst.
    destruct (strip_fixed a Ha Hne) as (c & rest & _ & _ & -> & _ & Hc & _).
    destruct (join_head sep c rest parts) as [rest' Hjoin].
    by exists c, rest'. }
  assert (exists front d, join sep (a :: parts) = front ++ [d] /\ isspace d = false)
    as (front & d & Hlast & Hd).
  { destruct (exists_last (l := a :: parts)) as (parts' & z & Hz); [discriminate|].
    rewrite Hz in Hparts |- *.
    apply Forall_app in Hparts as [_ Hzs].
    inversion Hzs as [|? ? [Hne Hstrip] _]; subst.
    destruct (strip_fixed z Hstrip Hne) as (_ & _ & front & d & _ & -> & _ & Hd).
    destruct (join_last sep parts' front d) as [front' Hjoin].
    by exists front', d. }
  exact (strip_id _ c d rest front Hhead Hlast Hc Hd).
Qed.

Lemma len_join (sep : str) (parts : list str) :
  parts <> [] -> len (join sep parts) = padded_length sep parts - len sep.
Proof.
  induction parts as [|a [|b parts] IH]; intros Hne; [congruence| |].
  - cbn [join padded_length]. lia.
  - change (join sep (a :: b :: parts)) with (a ++ sep ++ join sep (b :: parts)).
    rewrite !len_app, IH by discriminate.
    cbn [padded_length]. lia.
Qed.

Lemma padded_length_stripped (sep : str) (parts : list str) :
  padded_length sep (List.filter nonempty (strip <$> parts))
  <= padded_length sep parts.
Proof.
  induction parts as [|a parts IH]; [reflexivity|].
  cbn [fmap list_fmap List.filter padded_length] in *.
  pose proof (len_strip a). pose proof (len_nonneg sep).
  pose proof (len_nonneg a).
  destruct (nonempty (strip a)); cbn [padded_length]; lia.
Qed.

(** The fragments [split] and [strip] leave: stripped, none empty, none
    with the separator. *)
Lemma stripped_fragments (sep : N) (s : str) :
  Forall (fun fragment =>
            (fragment <> [] /\ strip fragment = fragment)
            /\ Forall (fun c => c <> sep) fragment)
         (List.filter nonempty (strip <$> split sep s)).
Proof.
  apply Forall_forall. intros line Hline.
  apply list_elem_of_In, List.filter_In in Hline as [Hin Hne].
  apply list_elem_of_In, list_elem_of_fmap in Hin as (fragment & -> & Hfragment).
  split; [split|].
  - by destruct (strip fragment).
  - apply strip_strip.
  - apply strip_Forall.
    assert (Forall (fun _ : N => True) s) as Htrue by (by apply Forall_true).
    pose proof (split_Forall (fun _ => True) sep s Htrue) as Hsplit.
    rewrite Forall_forall in Hsplit.
    eapply Forall_impl; [exact (Hsplit fragment Hfragment)|].
    intros c [_ Hc]. exact Hc.
Qed.

(** What follows the last separator is the last fragment. *)
Lemma split_last (sep : N) (s extension : str) :
  Forall (fun c => c <> sep) extension ->
  exists fragment fragments,
    split sep (s ++ sep :: extension) = (fragment :: fragments) ++ [extension].
Proof.
  intros Hextension. induction s as [|c s (fragment & fragments & IH)].
  - exists [], []. cbn [app split]. rewrite N.eqb_refl.
    by rewrite split_without by exact Hextension.
  - cbn [app split]. rewrite IH. destruct (c =? sep)%N.
    + by exists [], (fragment :: fragments).
    + by exists (c :: fragment), fragments.
Qed.

(** ** summary_generator.py: what the summarizers keep *)

(** X1: every sentence the summarizers work on is non-empty, holds no
    period, and has no white space at either end. *)
Theorem sentences_invariant (text : str) :
  Forall (fun s => s <> [] /\ Forall (fun c => c <> dot) s /\ strip s = s)
         (Summary.sentences text).
Proof.
  unfold Summary.sentences. apply Forall_forall. intros s Hs.
  apply list_elem_of_In, List.filter_In in Hs as [Hin Hne].
  apply list_elem_of_In, list_elem_of_fmap in Hin as (fragment & -> & Hfragment).
  split; [by destruct (strip fragment)|]. split.
  - apply strip_Forall.
    assert (Forall (fun _ : N => True) text) as Htrue by (by apply Forall_true).
    pose proof (split_Forall (fun _ => True) dot text Htrue) as Hsplit.
    rewrite Forall_forall in Hsplit.
    eapply Forall_impl; [exact (Hsplit fragment Hfragment)|].
    intros c [_ Hc]. exact Hc.
  - apply strip_strip.
Qed.

(** X2: a text made of periods and white space only has no sentence,
    and each summarizer answers it with the fixed notice, whatever
    [max_length] is. *)
Theorem no_sentence_no_summary (text : str) (max_length : option Z) :
  Forall (fun c => c = dot \/ isspace c = true) text ->
  Summary.sentences text = []
  /\ Summary.generate_brief_summary text max_length = Summary.no_content
  /\ Summary.generate_detailed_summary text max_length = Summary.no_content
  /\ Summary.generate_bullet_points_summary text max_length = Summary.no_content.
Proof.
  intros Htext.
  assert (Summary.sentences text = []) as Hs.
  { unfold Summary.sentences.
    pose proof (split_Forall _ dot text Htext) as Hsplit.
    induction Hsplit as [|fragment fragments Hfragment _ IH]; [reflexivity|].
    cbn [fmap list_fmap List.filter].
    rewrite strip_whitespace; [exact IH|].
    eapply Forall_impl; [exact Hfragment|].
    intros c [[->|Hc] Hne]; [congruence|exact Hc]. }
  unfold Summary.generate_brief_summary, Summary.generate_detailed_summary,
    Summary.generate_bullet_points_summary.
  rewrite Hs. repeat split; reflexivity.
Qed.

Lemma no_sentence_no_summary_witness :
  Summary.generate_brief_summary (py " . .. ") (Some 5) = Summary.no_content
  /\ Summary.generate_bullet_points_summary (py " . .. ") None = Summary.no_content.
Proof.
  destruct (no_sentence_no_summary (py " . .. ") (Some 5)) as (_ & Hbrief & _).
  { apply (bool_decide_unpack _). vm_compute. exact I. }
  destruct (no_sentence_no_summary (py " . .. ") None) as (_ & _ & _ & Hbullet).
  { apply (bool_decide_unpack _). vm_compute. exact I. }
  split; assumption.
Defined.

Lemma len_slice_to_le {A} (n : Z) (l : list A) :
  0 <= n -> len (slice_to n l) <= n.
Proof.
  intros Hn. unfold slice_to. destruct (Z.leb_spec 0 n); [|lia].
  unfold len. rewrite length_take. lia.
Qed.

Lemma len_bullet_point (sentence : str) :
  len (Summary.bullet_point sentence) <= 104.
Proof.
  unfold Summary.bullet_point. rewrite len_app.
  change (len Summary.bullet) with 4.
  destruct (Z.ltb_spec 100 (len sentence)).
  - rewrite len_app, len_ellipsis.
    pose proof (len_slice_to_le 97 sentence). lia.
  - lia.
Qed.

(** Joined by newlines, the points take at most 105 characters each,
    less one: the last point is not followed by a newline. *)
Lemma len_bullet_points (points : list str) :
  points <> [] ->
  len (join newline (Summary.bullet_point <$> points)) <= len points * 105 - 1.
Proof.
  induction points as [|a [|b points] IH]; intros Hpoints; [congruence| |].
  - cbn [fmap list_fmap join]. change (len [a]) with 1.
    pose proof (len_bullet_point a). lia.
  - change (len (join newline (Summary.bullet_point <$> a :: b :: points)))
      with (len (Summary.bullet_point a ++ newline
                   ++ join newline (Summary.bullet_point <$> b :: points))).
    rewrite !len_app. change (len newline) with 1.
    pose proof (len_bullet_point a).
    assert (b :: points <> []) as Hb by discriminate.
    specialize (IH Hb).
    change (len (a :: b :: points)) with (Z.of_nat (S (length (b :: points)))).
    unfold len in *. lia.
Qed.

(** X3: without [max_length] the bullet-point summary has at most five
    points of at most 104 characters each, so it is never longer than 524
    characters, however long the text is. *)
Theorem bullet_points_summary_bounded (text : str) :
  len (Summary.generate_bullet_points_summary text None) <= 524.
Proof.
  unfold Summary.generate_bullet_points_summary.
  destruct (Summary.sentences text) as [|s0 rest]; [vm_compute; discriminate|].
  cbv zeta.
  set (selected := slice_to (Z.min 5 (len (s0 :: rest))) (s0 :: rest)).
  assert (len selected <= 5) as Hselected.
  { pose proof (len_nonneg (s0 :: rest)).
    pose proof (len_slice_to_le (Z.min 5 (len (s0 :: rest))) (s0 :: rest)).
    subst selected. lia. }
  assert (selected <> []) as Hne.
  { subst selected. unfold slice_to.
    destruct (Z.leb_spec 0 (Z.min 5 (len (s0 :: rest)))) as [_|Hneg].
    - assert (0 < Z.to_nat (Z.min 5 (len (s0 :: rest))))%nat as Hpos
        by (unfold len; cbn [length]; lia).
      destruct (Z.to_nat (Z.min 5 (len (s0 :: rest)))); [lia|discriminate].
    - unfold len in Hneg. cbn [length] in Hneg. lia. }
  pose proof (len_bullet_points selected Hne). lia.
Qed.

Lemma truncated_points_prefix (points : list str) (current_length m : Z) :
  exists k, Summary.truncated_points points current_length m = take k points.
Proof.
  revert current_length.
  induction points as [|point rest IH]; intros current_length; [by exists 0%nat|].
  cbn [Summary.truncated_points].
  destruct (current_length + len point + 1 <=? m - 3).
  - destruct (IH (current_length + len point + 1)) as [k ->]. by exists (S k).
  - by exists 0%nat.
Qed.

(** X4: when [max_length] cuts the bullet-point summary, no point is cut
    in the middle: the result is some of the leading points of the
    natural summary, whole, followed by "...". *)
Theorem bullet_points_truncation_keeps_whole_points (text : str) (m : Z) :
  m <> 0 ->
  m < len (Summary.generate_bullet_points_summary text None) ->
  Summary.sentences text <> [] ->
  exists k,
    Summary.generate_bullet_points_summary text (Some m)
    = join newline
        (take k (Summary.bullet_point
                   <$> slice_to (Z.min 5 (len (Summary.sentences text)))
                         (Summary.sentences text)))
      ++ ellipsis.
Proof.
  intros Hm Hlt Hs. revert Hlt.
  unfold Summary.generate_bullet_points_summary.
  destruct (Summary.sentences text) as [|s0 rest]; [congruence|].
  cbv zeta. intros Hlt.
  destruct (Z.eqb_spec m 0); [lia|].
  destruct (Z.ltb_spec m (len (join newline (Summary.bullet_point <$>
    slice_to (Z.min 5 (len (s0 :: rest))) (s0 :: rest))))); [|lia].
  cbn [negb andb].
  destruct (truncated_points_prefix
              (Summary.bullet_point
                 <$> slice_to (Z.min 5 (len (s0 :: rest))) (s0 :: rest)) 0 m)
    as [k ->].
  by exists k.
Qed.

Lemma bullet_points_truncation_keeps_whole_points_witness :
  exists k,
    Summary.generate_bullet_points_summary
      (py "Hello world. Second one. Third") (Some 20)
    = join newline
        (take k (Summary.bullet_point <$> [py "Hello world"; py "Second one"; py "Third"]))
      ++ ellipsis.
Proof.
  apply (bullet_points_truncation_keeps_whole_points
           (py "Hello world. Second one. Third") 20).
  - discriminate.
  - reflexivity.
  - vm_compute. discriminate.
Defined.

(** ** summary_generator.py: summaries of summaries *)

Section SummaryOfSummary.
Import Summary.

(** The sentences of a text, read off at its first period. *)
Lemma sentences_app_dot (x y : str) :
  Forall (fun c => c <> dot) x ->
  sentences (x ++ dot :: y)
  = (if nonempty (strip x) then [strip x] else []) ++ sentences y.
Proof.
  intros Hx. unfold sentences. rewrite split_app_sep by exact Hx.
  cbn [fmap list_fmap List.filter]. by destruct (nonempty (strip x)).
Qed.

(** Sentences joined by ". ", closed by a period or not, are the
    sentences of the result. *)
Lemma sentences_join (spaces closing : str) (parts : list str) :
  Forall (fun c => isspace c = true) spaces ->
  closing = [] \/ closing = [dot] ->
  parts <> [] ->
  Forall (fun s => (s <> [] /\ strip s = s) /\ Forall (fun c => c <> dot) s) parts ->
  sentences (spaces ++ join (py ". ") parts ++ closing) = parts.
Proof.
  intros Hspaces Hclosing Hne Hparts. revert spaces Hspaces.
  induction Hparts as [|a parts [[Ha Hstrip] Hdot] Hparts IH];
    intros spaces Hspaces; [congruence|].
  assert (Forall (fun c => c <> dot) (spaces ++ a)) as Hfront.
  { apply Forall_app. split; [|exact Hdot].
    eapply Forall_impl; [exact Hspaces|].
    intros c Hc ->. discriminate Hc. }
  assert (nonempty a = true) as Hnonempty by (by destruct a).
  destruct parts as [|b parts].
  - cbn [join]. destruct Hclosing as [->| ->].
    + rewrite app_nil_r. unfold sentences.
      rewrite split_without by exact Hfront.
      cbn [fmap list_fmap List.filter].
      rewrite strip_spaces_app by assumption. by rewrite Hnonempty.
    + rewrite app_assoc, sentences_app_dot by exact Hfront.
      rewrite strip_spaces_app by assumption. by rewrite Hnonempty.
  - change (join (py ". ") (a :: b :: parts))
      with (a ++ (dot :: [32%N]) ++ join (py ". ") (b :: parts)).
    replace (spaces ++ (a ++ [dot; 32%N] ++ join (py ". ") (b :: parts)) ++ closing)
      with ((spaces ++ a)
              ++ dot :: ([32%N] ++ join (py ". ") (b :: parts) ++ closing))
      by (rewrite <- !app_assoc; reflexivity).
    rewrite sentences_app_dot by exact Hfront.
    rewrite strip_spaces_app by assumption. rewrite Hnonempty.
    cbn [app]. f_equal.
    apply (IH ltac:(discriminate) [32%N]).
    by repeat constructor.
Qed.

Lemma sentences_tidy (text : str) :
  Forall (fun s => (s <> [] /\ strip s = s) /\ Forall (fun c => c <> dot) s)
         (sentences text).
Proof. apply stripped_fragments. Qed.

(** The sentences the detailed summary joins. *)
Lemma detailed_summary_join (text : str) :
  sentences text <> [] ->
  exists chosen,
    generate_detailed_summary text None = join (py ". ") chosen ++ [dot]
    /\ chosen <> [] /\ len chosen <= 5 /\ sublist chosen (sentences text).
Proof.
  intros Hne. unfold generate_detailed_summary.
  destruct (sentences text) as [|s0 rest] eqn:Hs; [congruence|].
  cbv zeta. cbn [apply_max_length].
  destruct (Z.leb_spec (len (s0 :: rest)) (Z.min 5 (len (s0 :: rest)))) as [Hle|Hgt].
  - exists (s0 :: rest). repeat split; [discriminate|lia|reflexivity].
  - exists (slice_to 3 (s0 :: rest) ++ slice_from (-2) (s0 :: rest)).
    assert (5 < len (s0 :: rest)) as Hlong by lia.
    unfold slice_to, slice_from. cbn [Z.leb Z.compare].
    change (Z.to_nat 3) with 3%nat.
    split; [reflexivity|]. split; [|split].
    + destruct rest; discriminate.
    + unfold len in *. rewrite length_app, length_take, length_drop. lia.
    + replace (Z.to_nat (len (s0 :: rest) + -2))
        with (3 + (Z.to_nat (len (s0 :: rest) + -2) - 3))%nat by lia.
      rewrite <- drop_drop.
      transitivity (take 3 (s0 :: rest) ++ drop 3 (s0 :: rest));
        [|by rewrite take_drop].
      apply sublist_app; [reflexivity|apply sublist_drop].
Qed.

End SummaryOfSummary.

(** X5: without [max_length], the detailed summary of a detailed
    summary is that summary; a detailed summary has at most five
    sentences, and when the text has a sentence they are sentences of the
    text, whole and in the order of the text. *)
Theorem detailed_summary_is_idempotent (text : str) :
  let summary := Summary.generate_detailed_summary text None in
  Summary.generate_detailed_summary summary None = summary
  /\ len (Summary.sentences summary) <= 5
  /\ (Summary.sentences text <> [] ->
      sublist (Summary.sentences summary) (Summary.sentences text)).
Proof.
  cbv zeta.
  destruct (decide (Summary.sentences text = [])) as [Hnone|Hsome].
  - assert (Summary.generate_detailed_summary text None = Summary.no_content)
      as ->.
    { unfold Summary.generate_detailed_summary. by rewrite Hnone. }
    split; [vm_compute; reflexivity|]. split; [vm_compute; discriminate|].
    congruence.
  - destruct (detailed_summary_join text Hsome)
      as (chosen & -> & Hne & Hlen & Hsub).
    assert (Summary.sentences (join (py ". ") chosen ++ [dot]) = chosen)
      as Hsentences.
    { apply (sentences_join [] [dot] chosen); [constructor|by right|exact Hne|].
      pose proof (sentences_tidy text) as Htidy.
      apply Forall_forall. intros s Hs.
      rewrite Forall_forall in Htidy. apply Htidy.
      eapply elem_of_sublist; [exact Hs|exact Hsub]. }
    split; [|split].
    + unfold Summary.generate_detailed_summary. rewrite Hsentences.
      destruct chosen as [|c0 chosen]; [congruence|].
      cbv zeta. cbn [Summary.apply_max_length].
      destruct (Z.leb_spec (len (c0 :: chosen)) (Z.min 5 (len (c0 :: chosen))));
        [reflexivity|lia].
    + by rewrite Hsentences.
    + intros _. by rewrite Hsentences.
Qed.

(** X6: without [max_length], the brief summary of a text that has a
    sentence is made of one or two sentences of the text, whole and in the
    order of the text, and the brief summary of that summary is the
    summary itself. *)
Theorem brief_summary_is_idempotent (text : str) :
  Summary.sentences text <> [] ->
  let summary := Summary.generate_brief_summary text None in
  Summary.generate_brief_summary summary None = summary
  /\ 1 <= len (Summary.sentences summary) <= 2
  /\ sublist (Summary.sentences summary) (Summary.sentences text).
Proof.
  intros Hsome. cbv zeta.
  pose proof (sentences_tidy text) as Htidy.
  assert (exists chosen,
             Summary.generate_brief_summary text None = join (py ". ") chosen
             /\ 1 <= len chosen <= 2
             /\ sublist chosen (Summary.sentences text))
    as (chosen & Hsummary & Hlen & Hsub).
  { unfold Summary.generate_brief_summary.
    destruct (Summary.sentences text) as [|s0 [|s1 [|s2 rest]]]; [congruence| | |].
    - exists [s0]. split; [reflexivity|]. split; [by vm_compute|reflexivity].
    - exists [s0; s1]. split; [reflexivity|]. split; [by vm_compute|reflexivity].
    - exists [s0; List.last (s2 :: rest) []].
      split; [reflexivity|]. split; [by vm_compute|].
      constructor. apply sublist_cons.
      destruct (exists_last (l := s2 :: rest)) as (front & z & ->); [discriminate|].
      rewrite last_last. apply sublist_inserts_l. reflexivity. }
  assert (Summary.sentences (join (py ". ") chosen) = chosen) as Hsentences.
  { rewrite <- (app_nil_r (join (py ". ") chosen)).
    apply (sentences_join [] [] chosen); [constructor|by left| |].
    - destruct chosen; [unfold len in Hlen; cbn [length] in Hlen; lia|discriminate].
    - apply Forall_forall. intros s Hs.
      rewrite Forall_forall in Htidy. apply Htidy.
      eapply elem_of_sublist; [exact Hs|exact Hsub]. }
  rewrite Hsummary, Hsentences. split; [|split; assumption].
  unfold Summary.generate_brief_summary. rewrite Hsentences.
  destruct chosen as [|c0 [|c1 [|c2 chosen]]]; try reflexivity;
    unfold len in Hlen; cbn [length] in Hlen; lia.
Qed.

Lemma brief_summary_is_idempotent_witness :
  Summary.generate_brief_summary
    (Summary.generate_brief_summary (py "One. Two. Three.") None) None
  = py "One. Three".
Proof.
  destruct (brief_summary_is_idempotent (py "One. Two. Three.")) as [Hfixed _].
  - vm_compute. discriminate.
  - exact Hfixed.
Defined.

(** ** The identifiers *)

Lemma fmt_05d_digits (z : Z) :
  0 <= z < 100000 ->
  length (fmt_05d z) = 5%nat
  /\ Forall (fun c => (48 <= c <= 57)%N) (fmt_05d z)
  /\ decimal_value (fmt_05d z) = z.
Proof.
  intros Hz. unfold fmt_05d, decimal_value.
  cbn [fmap list_fmap foldl length].
  change (10 ^ 4) with 10000. change (10 ^ 3) with 1000.
  change (10 ^ 2) with 100. change (10 ^ 1) with 10. change (10 ^ 0) with 1.
  assert (forall d, (48 <= Z.to_N (48 + d mod 10) <= 57)%N) as Hdigit.
  { intros d. pose proof (Z.mod_pos_bound d 10). lia. }
  split; [reflexivity|]. split.
  - repeat (apply Forall_cons_2; [apply Hdigit|]). apply Forall_nil_2.
  - assert (forall d, Z.of_N (Z.to_N (48 + d mod 10)) = 48 + d mod 10) as Hid.
    { intros d. pose proof (Z.mod_pos_bound d 10). lia. }
    rewrite !Hid, Z.div_1_r.
    Z.to_euclidean_division_equations. lia.
Qed.

(** X7: the identifier of a summary ([sum_] and then
    [hash(text + summary_type) % 100000] printed with [:05d]) and of a
    processing run ([proc_ ...]) always ends in exactly five decimal
    digits, whatever [hash] returns, negative values included; read as a
    number the digits are the remainder. *)
Theorem identifier_has_five_digits `{PyRuntime} (s : str) :
  length (fmt_05d (hash s mod 100000)) = 5%nat
  /\ Forall (fun c => (48 <= c <= 57)%N) (fmt_05d (hash s mod 100000))
  /\ decimal_value (fmt_05d (hash s mod 100000)) = hash s mod 100000.
Proof.
  apply fmt_05d_digits.
  apply Z.mod_pos_bound. lia.
Qed.

(** ** summary_generator.py: the handler *)

Section SummaryHandlerFacts.
Context `{PyRuntime}.
Import FunctionCall.

Lemma dict_get_insert_eq (parameters : pydict) (key : str) (value default : pyval) :
  dict_get (<[KStr key := value]> parameters) key default = value.
Proof. unfold dict_get. by rewrite lookup_insert_eq. Qed.

Lemma dict_get_insert_ne (parameters : pydict) (key key' : str)
    (value default : pyval) :
  key <> key' ->
  dict_get (<[KStr key := value]> parameters) key' default
  = dict_get parameters key' default.
Proof. intros Hne. unfold dict_get. rewrite lookup_insert_ne; congruence. Qed.

Lemma dict_get_delete_eq (parameters : pydict) (key : str) (default : pyval) :
  dict_get (delete (KStr key) parameters) key default = default.
Proof. unfold dict_get. by rewrite lookup_delete_eq. Qed.

Lemma dict_get_delete_ne (parameters : pydict) (key key' : str) (default : pyval) :
  key <> key' ->
  dict_get (delete (KStr key) parameters) key' default
  = dict_get parameters key' default.
Proof. intros Hne. unfold dict_get. rewrite lookup_delete_ne; congruence. Qed.

Lemma find_valid_type (kind : str) :
  In kind Summary.valid_types ->
  find (eq_str (VStr kind)) Summary.valid_types = Some kind.
Proof. intros [<-|[<-|[<-|[]]]]; reflexivity. Qed.

Lemma summarize_str (kind text : str) (max_length : option Z) :
  In kind Summary.valid_types ->
  Summary.summarize kind (VStr text) max_length
  = Ok (summarizer kind text max_length).
Proof. intros [<-|[<-|[<-|[]]]]; reflexivity. Qed.

(** [generate_summary] on a text that is a non-empty string and a valid
    type. *)
Lemma generate_summary_str (parameters : pydict) (ag fn : pyval)
    (text kind : str) :
  dict_get parameters (py "text") (VStr []) = VStr text -> text <> [] ->
  dict_get parameters (py "summary_type") (VStr (py "brief")) = VStr kind ->
  In kind Summary.valid_types ->
  Summary.generate_summary parameters ag fn
  = let max_length :=
      match dict_get parameters (py "max_length") VNone with
      | VNone => None
      | v => int_or_none v
      end in
    let summary := summarizer kind text max_length in
    create_success_response ag fn
      (VDict [(py "summary_id",
               VStr (py "sum_" ++ fmt_05d (hash (text ++ kind) mod 100000)));
              (py "summary", VStr summary);
              (py "summary_type", VStr kind);
              (py "original_length", VInt (len text));
              (py "summary_length", VInt (len summary));
              (py "compression_ratio",
               VFloat (round2_div (len summary) (len text)))]).
Proof.
  intros Htext Hne Hkind Hvalid.
  unfold Summary.generate_summary, Summary.generate_summary_try.
  rewrite Htext, Hkind. cbn [truthy].
  destruct text as [|c text]; [congruence|]. cbn [nonempty negb].
  rewrite (find_valid_type kind Hvalid). cbn [py_len bind].
  rewrite (summarize_str kind _ _ Hvalid).
  destruct (dict_get parameters (py "max_length") VNone); reflexivity.
Qed.

End SummaryHandlerFacts.

(** X8: a well-formed request for [generate_summary] with a non-empty
    [text] and a valid (or absent) [summary_type] is answered by a success
    envelope: the summary is the selected summarizer's on the text and the
    [max_length] sent, [original_length] and [summary_length] are the
    lengths of the text and of that summary, and [summary_type] is echoed. *)
Theorem summary_request_succeeds `{PyRuntime}
    (event : list (str * pyval)) (params : list pyval)
    (entries : list (str * pyval)) (text kind : str) :
  field event "parameters" (VList []) = VList params ->
  mapM named_value params = Some entries ->
  field event "function" (VStr []) = VStr (py "generate_summary") ->
  last_write_wins (py "text") entries = Some (VStr text) ->
  text <> [] ->
  from_option id (VStr (py "brief")) (last_write_wins (py "summary_type") entries)
  = VStr kind ->
  In kind Summary.valid_types ->
  let summary := summarizer kind text (max_length_of entries) in
  Summary.lambda_handler (VDict event)
  = Ok (FunctionCall.create_success_response
          (field event "actionGroup" (VStr [])) (VStr (py "generate_summary"))
          (VDict [(py "summary_id",
                   VStr (py "sum_" ++ fmt_05d (hash (text ++ kind) mod 100000)));
                  (py "summary", VStr summary);
                  (py "summary_type", VStr kind);
                  (py "original_length", VInt (len text));
                  (py "summary_length", VInt (len summary));
                  (py "compression_ratio",
                   VFloat (round2_div (len summary) (len text)))])).
Proof.
  intros Hparameters Hnamed Hfunction Htext Hne Hkind Hvalid.
  destruct (summary_handler_named event params entries Hparameters Hnamed)
    as (parameters & Hlookup & ->).
  rewrite Hfunction. cbn [eq_str].
  rewrite bool_decide_eq_true_2 by reflexivity.
  rewrite (generate_summary_str parameters _ _ text kind); try assumption.
  - unfold max_length_of.
    rewrite (dict_get_named entries parameters) by exact Hlookup. reflexivity.
  - rewrite (dict_get_named entries parameters) by exact Hlookup.
    by rewrite Htext.
  - rewrite (dict_get_named entries parameters) by exact Hlookup. exact Hkind.
Qed.

Lemma summary_request_succeeds_witness :
  @Summary.lambda_handler Example.runtime
    (Example.event "docs" "generate_summary"
       [Example.parameter "text" "A. B. C."; Example.parameter "max_length" "3"])
  = Ok (@FunctionCall.create_success_response Example.runtime
          (VStr (py "docs")) (VStr (py "generate_summary"))
          (VDict [(py "summary_id", VStr (py "sum_92135"));
                  (py "summary", VStr (py "..."));
                  (py "summary_type", VStr (py "brief"));
                  (py "original_length", VInt 8);
                  (py "summary_length", VInt 3);
                  (py "compression_ratio", VFloat (38 # 100))])).
Proof.
  apply (@summary_request_succeeds Example.runtime
           [(py "messageVersion", VStr (py "1.0"));
            (py "actionGroup", VStr (py "docs"));
            (py "function", VStr (py "generate_summary"));
            (py "parameters",
             VList [Example.parameter "text" "A. B. C.";
                    Example.parameter "max_length" "3"])]
           [Example.parameter "text" "A. B. C."; Example.parameter "max_length" "3"]
           [(py "text", VStr (py "A. B. C.")); (py "max_length", VStr (py "3"))]
           (py "A. B. C.") (py "brief") eq_refl eq_refl eq_refl eq_refl).
  - discriminate.
  - reflexivity.
  - left. reflexivity.
Defined.

Ltac py_neq := let Heq := fresh in intros Heq; vm_compute in Heq; discriminate.

(** X9: a [max_length] that [int()] refuses (a word, a list) is dropped
    without a word: the answer is the answer to the same request without
    [max_length]. *)
Theorem unparsable_max_length_is_ignored `{PyRuntime} (parameters : pydict)
    (action_group function_name value : pyval) :
  int_or_none value = None ->
  Summary.generate_summary
    (<[KStr (py "max_length") := value]> parameters) action_group function_name
  = Summary.generate_summary
      (delete (KStr (py "max_length")) parameters) action_group function_name.
Proof.
  intros Hnone.
  unfold Summary.generate_summary, Summary.generate_summary_try.
  rewrite !dict_get_insert_ne by py_neq.
  rewrite !dict_get_delete_ne by py_neq.
  rewrite dict_get_insert_eq, dict_get_delete_eq.
  destruct value; try rewrite Hnone; reflexivity.
Qed.

Lemma unparsable_max_length_is_ignored_witness :
  @Summary.generate_summary Example.runtime
    (<[KStr (py "max_length") := VStr (py "ten")]>
       {[ KStr (py "text") := VStr (py "A. B. C.") ]})
    (VStr []) (VStr (py "generate_summary"))
  = @Summary.generate_summary Example.runtime
      (delete (KStr (py "max_length"))
         {[ KStr (py "text") := VStr (py "A. B. C.") ]})
      (VStr []) (VStr (py "generate_summary")).
Proof.
  apply (@unparsable_max_length_is_ignored Example.runtime).
  reflexivity.
Defined.

(** X10: a well-formed request for [generate_summary] whose [text] is
    there but whose [summary_type] is none of the three literals is
    answered by a failure envelope with the error "Invalid summary_type"
    and the three valid types under [details]. *)
Theorem invalid_summary_type_fails `{PyRuntime}
    (event : list (str * pyval)) (params : list pyval)
    (entries : list (str * pyval)) (summary_type : pyval) :
  field event "parameters" (VList []) = VList params ->
  mapM named_value params = Some entries ->
  field event "function" (VStr []) = VStr (py "generate_summary") ->
  truthy (from_option id (VStr []) (last_write_wins (py "text") entries)) = true ->
  last_write_wins (py "summary_type") entries = Some summary_type ->
  (forall kind, In kind Summary.valid_types -> summary_type <> VStr kind) ->
  Summary.lambda_handler (VDict event)
  = Ok (failure (field event "actionGroup" (VStr []))
          (VStr (py "generate_summary"))
          (VDict [(py "error", VStr (py "Invalid summary_type"));
                  (py "details",
                   VDict [(py "valid_types",
                           VList [VStr (py "brief"); VStr (py "detailed");
                                  VStr (py "bullet_points")])])])).
Proof.
  intros Hparameters Hnamed Hfunction Htext Hkind Hinvalid.
  destruct (summary_handler_named event params entries Hparameters Hnamed)
    as (parameters & Hlookup & ->).
  rewrite Hfunction. cbn [eq_str].
  rewrite bool_decide_eq_true_2 by reflexivity.
  unfold Summary.generate_summary, Summary.generate_summary_try.
  rewrite !(dict_get_named entries parameters) by exact Hlookup.
  rewrite Htext, Hkind. cbn [negb from_option id].
  assert (find (eq_str summary_type) Summary.valid_types = None) as ->;
    [|reflexivity].
  unfold Summary.valid_types. cbn [find].
  destruct summary_type as [| | | |s| |]; try reflexivity.
  cbn [eq_str]. repeat case_bool_decide; try reflexivity; subst s;
    exfalso; eapply Hinvalid; try reflexivity; cbn; tauto.
Qed.

Lemma invalid_summary_type_fails_witness :
  @Summary.lambda_handler Example.runtime
    (Example.event "docs" "generate_summary"
       [Example.parameter "text" "A. B. C.";
        Example.parameter "summary_type" "short"])
  = Ok (@failure Example.runtime (VStr (py "docs")) (VStr (py "generate_summary"))
          (VDict [(py "error", VStr (py "Invalid summary_type"));
                  (py "details",
                   VDict [(py "valid_types",
                           VList [VStr (py "brief"); VStr (py "detailed");
                                  VStr (py "bullet_points")])])])).
Proof.
  apply (@invalid_summary_type_fails Example.runtime
           [(py "messageVersion", VStr (py "1.0"));
            (py "actionGroup", VStr (py "docs"));
            (py "function", VStr (py "generate_summary"));
            (py "parameters",
             VList [Example.parameter "text" "A. B. C.";
                    Example.parameter "summary_type" "short"])]
           [Example.parameter "text" "A. B. C.";
            Example.parameter "summary_type" "short"]
           [(py "text", VStr (py "A. B. C."));
            (py "summary_type", VStr (py "short"))]
           (VStr (py "short")) eq_refl eq_refl eq_refl eq_refl eq_refl).
  intros kind [<-|[<-|[<-|[]]]]; discriminate.
Defined.

(** ** What both function-call handlers do *)

Section FunctionCallFacts.
Context `{PyRuntime} `{S3Client}.
Import FunctionCall.

Lemma generate_summary_echo parameters ag fn :
  exists functionResponse,
    Summary.generate_summary parameters ag fn = envelope ag fn functionResponse.
Proof.
  unfold Summary.generate_summary.
  destruct (Summary.generate_summary_try parameters ag fn) as [response|e] eqn:Htry;
    [|eexists; reflexivity].
  unfold Summary.generate_summary_try in Htry. cbv zeta in Htry.
  repeat step_body Htry; try discriminate;
    injection Htry as Hr; rewrite <- Hr; eexists; reflexivity.
Qed.

Lemma process_text_echo parameters ag fn :
  exists functionResponse,
    TextProcessor.process_text parameters ag fn = envelope ag fn functionResponse.
Proof.
  unfold TextProcessor.process_text.
  destruct (TextProcessor.process_text_try parameters ag fn) as [response|e] eqn:Htry;
    [|eexists; reflexivity].
  unfold TextProcessor.process_text_try in Htry. cbv zeta in Htry.
  repeat step_body Htry; try discriminate;
    injection Htry as Hr; rewrite <- Hr; eexists; reflexivity.
Qed.

End FunctionCallFacts.

(** X11: whatever happens to a request (success, a refused parameter, an
    unknown function, a fault), the envelope the summary generator and the
    text processor return carries the event's [actionGroup] and [function]
    unchanged (the empty string for a field the event lacks), under
    [messageVersion] "1.0". *)
Theorem envelope_echoes_action_group_and_function `{PyRuntime} `{S3Client}
    (event : list (str * pyval)) :
  (exists functionResponse,
      Summary.lambda_handler (VDict event)
      = Ok (FunctionCall.envelope (field event "actionGroup" (VStr []))
              (field event "function" (VStr [])) functionResponse))
  /\ (exists functionResponse,
         TextProcessor.lambda_handler (VDict event)
         = Ok (FunctionCall.envelope (field event "actionGroup" (VStr []))
                 (field event "function" (VStr [])) functionResponse)).
Proof.
  split.
  - unfold Summary.lambda_handler, Summary.lambda_handler_try, field.
    cbn [get bind].
    destruct (FunctionCall.parameters_dict _) as [parameters|e];
      cbn [bind]; [|eexists; reflexivity].
    destruct (eq_str _ _); [|eexists; reflexivity].
    destruct (generate_summary_echo parameters
                (from_option id (VStr []) (lookup_item (py "actionGroup") event))
                (from_option id (VStr []) (lookup_item (py "function") event)))
      as [functionResponse ->].
    by exists functionResponse.
  - unfold TextProcessor.lambda_handler, TextProcessor.lambda_handler_try, field.
    cbn [get bind].
    destruct (FunctionCall.parameters_dict _) as [parameters|e];
      cbn [bind]; [|eexists; reflexivity].
    destruct (eq_str _ _); [|eexists; reflexivity].
    destruct (process_text_echo parameters
                (from_option id (VStr []) (lookup_item (py "actionGroup") event))
                (from_option id (VStr []) (lookup_item (py "function") event)))
      as [functionResponse ->].
    by exists functionResponse.
Qed.

(** X12: when the parameter loop faults (a [parameters] field that is
    [null] or a number, an entry that is not a dictionary, a name that is
    a list), both function-call handlers answer a failure envelope with
    the error "Internal server error" and the exception's message under
    [details], whatever the function name is. *)
Theorem parameter_fault_is_internal_server_error `{PyRuntime} `{S3Client}
    (event : list (str * pyval)) (e : exn) :
  FunctionCall.parameters_dict (field event "parameters" (VList [])) = Raise e ->
  Summary.lambda_handler (VDict event)
  = Ok (FunctionCall.create_error_response
          (field event "actionGroup" (VStr [])) (field event "function" (VStr []))
          (py "Internal server error") (VStr (exn_str e)))
  /\ TextProcessor.lambda_handler (VDict event)
     = Ok (FunctionCall.create_error_response
             (field event "actionGroup" (VStr [])) (field event "function" (VStr []))
             (py "Internal server error") (VStr (exn_str e))).
Proof.
  intros Hfault. unfold field in *. split.
  - unfold Summary.lambda_handler, Summary.lambda_handler_try.
    cbn [get bind]. rewrite Hfault. reflexivity.
  - unfold TextProcessor.lambda_handler, TextProcessor.lambda_handler_try.
    cbn [get bind]. rewrite Hfault. reflexivity.
Qed.

Lemma parameter_fault_is_internal_server_error_witness :
  @Summary.lambda_handler Example.runtime
    (VDict [(py "function", VStr (py "generate_summary"));
            (py "parameters", VNone)])
  = Ok (@failure Example.runtime (VStr []) (VStr (py "generate_summary"))
          (VDict [(py "error", VStr (py "Internal server error"));
                  (py "details", VStr (py "'NoneType' object is not iterable"))]))
  /\ @TextProcessor.lambda_handler Example.runtime Example.s3
       (VDict [(py "function", VStr (py "process_text"));
               (py "parameters",
                VList [VDict [(py "name", VList []); (py "value", VStr [])]])])
     = Ok (@failure Example.runtime (VStr []) (VStr (py "process_text"))
             (VDict [(py "error", VStr (py "Internal server error"));
                     (py "details", VStr (py "unhashable type: 'list'"))])).
Proof.
  split.
  - apply (@parameter_fault_is_internal_server_error Example.runtime Example.s3
             [(py "function", VStr (py "generate_summary"));
              (py "parameters", VNone)]
             (TypeError (py "'NoneType' object is not iterable")) eq_refl).
  - apply (@parameter_fault_is_internal_server_error Example.runtime Example.s3
             [(py "function", VStr (py "process_text"));
              (py "parameters",
               VList [VDict [(py "name", VList []); (py "value", VStr [])]])]
             (TypeError (py "unhashable type: 'list'")) eq_refl).
Defined.

(** ** text_processor.py *)

Section TextProcessorFacts.
Context `{PyRuntime} `{S3Client}.
Import FunctionCall.

Lemma find_processing_type (kind : str) :
  In kind TextProcessor.valid_types ->
  find (eq_str (VStr kind)) TextProcessor.valid_types = Some kind.
Proof. intros [<-|[<-|[<-|[]]]]; reflexivity. Qed.

(** [process_text] once the object is fetched. *)
Lemma process_text_try_fetched (parameters : pydict) (ag fn : pyval)
    (bucket key : str) (file_content : bytes) :
  dict_get parameters (py "s3_bucket") VNone = VStr bucket -> bucket <> [] ->
  dict_get parameters (py "s3_key") VNone = VStr key -> key <> [] ->
  get_object (VStr bucket) (VStr key) = Ok file_content ->
  TextProcessor.process_text_try parameters ag fn
  = let processing_type :=
      dict_get parameters (py "processing_type") (VStr (py "extract")) in
    let* text_content := decoded key file_content in
    match find (eq_str processing_type) TextProcessor.valid_types with
    | None =>
        Ok (create_error_response ag fn (py "Invalid processing type")
              (VDict [(py "valid_types",
                       VList (VStr <$> TextProcessor.valid_types))]))
    | Some kind =>
        let processed := TextProcessor.process kind key file_content text_content in
        Ok (create_success_response ag fn
              (VDict [(py "processing_id",
                       VStr (py "proc_"
                               ++ fmt_05d (hash ((bucket ++ key) ++ kind)
                                             mod 100000)));
                      (py "status", VStr (py "completed"));
                      (py "extracted_text", VStr (slice_to 1000 processed.1));
                      (py "metadata", processed.2);
                      (py "processing_type", processing_type);
                      (py "source",
                       VDict [(py "bucket", VStr bucket);
                              (py "key", VStr key)])]))
    end.
Proof.
  intros Hbucket Hb Hkey Hk Hfetch.
  unfold TextProcessor.process_text_try. rewrite Hbucket, Hkey.
  destruct bucket as [|b bucket]; [congruence|].
  destruct key as [|k key]; [congruence|].
  cbn [truthy nonempty negb orb]. rewrite Hfetch. cbn [bind str_receiver].
  unfold decoded.
  destruct (endswith _ _); [|destruct (endswith _ _)].
  - destruct (decode_utf8 file_content); cbn [bind]; [|reflexivity].
    destruct (find _ _); [|reflexivity].
    destruct (TextProcessor.process _ _ _ _). reflexivity.
  - destruct (decode_utf8 file_content); cbn [bind]; [|reflexivity].
    destruct (json_loads _); cbn [bind]; [|reflexivity].
    destruct (find _ _); [|reflexivity].
    destruct (TextProcessor.process _ _ _ _). reflexivity.
  - cbn [bind]. destruct (find _ _); [|reflexivity].
    destruct (TextProcessor.process _ _ _ _). reflexivity.
Qed.

End TextProcessorFacts.

(** X13: when the S3 fetch raises, [process_text] answers a failure
    envelope with the error "Text processing failed" and the exception's
    message under [details]. The fetch comes before [processing_type] is
    looked at, so this is the answer for an invalid type as well. *)
Theorem fetch_failure_is_reported `{PyRuntime} `{S3Client} (parameters : pydict)
    (action_group function_name : pyval) (e : exn) :
  truthy (dict_get parameters (py "s3_bucket") VNone) = true ->
  truthy (dict_get parameters (py "s3_key") VNone) = true ->
  get_object (dict_get parameters (py "s3_bucket") VNone)
    (dict_get parameters (py "s3_key") VNone) = Raise e ->
  TextProcessor.process_text parameters action_group function_name
  = FunctionCall.create_error_response action_group function_name
      (py "Text processing failed") (VStr (exn_str e)).
Proof.
  intros Hbucket Hkey Hfetch.
  unfold TextProcessor.process_text, TextProcessor.process_text_try.
  rewrite Hbucket, Hkey. cbn [negb orb]. rewrite Hfetch. reflexivity.
Qed.

Lemma fetch_failure_is_reported_witness :
  @TextProcessor.process_text Example.runtime Example.s3
    {[ KStr (py "s3_bucket") := VStr (py "docs");
       KStr (py "s3_key") := VStr (py "absent.txt");
       KStr (py "processing_type") := VStr (py "shred") ]}
    (VStr []) (VStr (py "process_text"))
  = @FunctionCall.create_error_response Example.runtime
      (VStr []) (VStr (py "process_text")) (py "Text processing failed")
      (VStr (py "An error occurred (NoSuchKey) when calling the GetObject operation: The specified key does not exist.")).
Proof.
  apply (@fetch_failure_is_reported Example.runtime Example.s3 _ _ _
           (Exn "NoSuchKey"
              (py "An error occurred (NoSuchKey) when calling the GetObject operation: The specified key does not exist.")));
    reflexivity.
Defined.

(** X14: once the object is fetched and decoded, a [processing_type]
    that is none of [extract], [analyze], [clean] is answered by a failure
    envelope with the error "Invalid processing type" and the three valid
    types under [details]. *)
Theorem invalid_processing_type_fails `{PyRuntime} `{S3Client}
    (parameters : pydict) (action_group function_name : pyval)
    (bucket key : str) (file_content : bytes) (text_content : str)
    (processing_type : pyval) :
  dict_get parameters (py "s3_bucket") VNone = VStr bucket -> bucket <> [] ->
  dict_get parameters (py "s3_key") VNone = VStr key -> key <> [] ->
  get_object (VStr bucket) (VStr key) = Ok file_content ->
  decoded key file_content = Ok text_content ->
  parameters !! KStr (py "processing_type") = Some processing_type ->
  (forall kind, In kind TextProcessor.valid_types -> processing_type <> VStr kind) ->
  TextProcessor.process_text parameters action_group function_name
  = failure action_group function_name
      (VDict [(py "error", VStr (py "Invalid processing type"));
              (py "details",
               VDict [(py "valid_types",
                       VList [VStr (py "extract"); VStr (py "analyze");
                              VStr (py "clean")])])]).
Proof.
  intros Hbucket Hb Hkey Hk Hfetch Hdecoded Htype Hinvalid.
  unfold TextProcessor.process_text.
  rewrite (process_text_try_fetched parameters _ _ bucket key file_content)
    by assumption.
  cbv zeta. rewrite Hdecoded. cbn [bind].
  unfold dict_get at 1. rewrite Htype. cbn [from_option id].
  assert (find (eq_str processing_type) TextProcessor.valid_types = None) as ->;
    [|reflexivity].
  unfold TextProcessor.valid_types. cbn [find].
  destruct processing_type as [| | | |s| |]; try reflexivity.
  cbn [eq_str]. repeat case_bool_decide; try reflexivity; subst s;
    exfalso; eapply Hinvalid; try reflexivity; cbn; tauto.
Qed.

Lemma invalid_processing_type_fails_witness :
  @TextProcessor.process_text Example.runtime Example.s3
    {[ KStr (py "s3_bucket") := VStr (py "docs");
       KStr (py "s3_key") := VStr (py "notes.txt");
       KStr (py "processing_type") := VStr (py "shred") ]}
    (VStr []) (VStr (py "process_text"))
  = @failure Example.runtime (VStr []) (VStr (py "process_text"))
      (VDict [(py "error", VStr (py "Invalid processing type"));
              (py "details",
               VDict [(py "valid_types",
                       VList [VStr (py "extract"); VStr (py "analyze");
                              VStr (py "clean")])])]).
Proof.
  apply (@invalid_processing_type_fails Example.runtime Example.s3 _ _ _
           (py "docs") (py "notes.txt")
           [x48; x69; x2e; x20; x42; x79; x65; x2e]%byte (py "Hi. Bye.")
           (VStr (py "shred")));
    try reflexivity; try discriminate.
  intros kind [<-|[<-|[<-|[]]]]; discriminate.
Defined.

(** X15: a request for a fetched and decoded object with a valid (or
    absent) [processing_type] is answered by a success envelope whose
    [extracted_text] is the first 1000 characters of the processed text,
    never more, with status "completed" and the bucket and key echoed
    under [source]. *)
Theorem extracted_text_is_capped `{PyRuntime} `{S3Client}
    (parameters : pydict) (action_group function_name : pyval)
    (bucket key kind : str) (file_content : bytes) (text_content : str) :
  dict_get parameters (py "s3_bucket") VNone = VStr bucket -> bucket <> [] ->
  dict_get parameters (py "s3_key") VNone = VStr key -> key <> [] ->
  get_object (VStr bucket) (VStr key) = Ok file_content ->
  decoded key file_content = Ok text_content ->
  dict_get parameters (py "processing_type") (VStr (py "extract")) = VStr kind ->
  In kind TextProcessor.valid_types ->
  let processed := TextProcessor.process kind key file_content text_content in
  TextProcessor.process_text parameters action_group function_name
  = FunctionCall.create_success_response action_group function_name
      (VDict [(py "processing_id",
               VStr (py "proc_"
                       ++ fmt_05d (hash ((bucket ++ key) ++ kind) mod 100000)));
              (py "status", VStr (py "completed"));
              (py "extracted_text", VStr (slice_to 1000 processed.1));
              (py "metadata", processed.2);
              (py "processing_type", VStr kind);
              (py "source",
               VDict [(py "bucket", VStr bucket); (py "key", VStr key)])])
  /\ len (slice_to 1000 processed.1) <= 1000.
Proof.
  intros Hbucket Hb Hkey Hk Hfetch Hdecoded Htype Hvalid. cbv zeta. split.
  - unfold TextProcessor.process_text.
    rewrite (process_text_try_fetched parameters _ _ bucket key file_content)
      by assumption.
    cbv zeta. rewrite Hdecoded, Htype. cbn [bind].
    rewrite (find_processing_type kind Hvalid). reflexivity.
  - apply len_slice_to_le. lia.
Qed.

Lemma extracted_text_is_capped_witness :
  exists result,
    @TextProcessor.process_text Example.runtime Example.s3
      {[ KStr (py "s3_bucket") := VStr (py "docs");
         KStr (py "s3_key") := VStr (py "notes.txt") ]}
      (VStr []) (VStr (py "process_text"))
    = @FunctionCall.create_success_response Example.runtime
        (VStr []) (VStr (py "process_text")) (VDict result)
    /\ lookup_item (py "extracted_text") result = Some (VStr (py "Hi. Bye.")).
Proof.
  destruct (@extracted_text_is_capped Example.runtime Example.s3
              {[ KStr (py "s3_bucket") := VStr (py "docs");
                 KStr (py "s3_key") := VStr (py "notes.txt") ]}
              (VStr []) (VStr (py "process_text"))
              (py "docs") (py "notes.txt") (py "extract")
              [x48; x69; x2e; x20; x42; x79; x65; x2e]%byte (py "Hi. Bye."))
    as [Hresponse _]; try reflexivity; try discriminate.
  { left. reflexivity. }
  eexists. split; [exact Hresponse|reflexivity].
Defined.

(** ** text_processor.py: objects that do not decode *)

(** X16: when the fetched object does not decode (bytes that are not
    UTF-8 under a [.txt] or [.json] key, or a [.json] object that is not
    JSON), [process_text] answers a failure envelope with the error "Text
    processing failed" and the exception's message under [details],
    whatever [processing_type] is. *)
Theorem undecodable_object_fails `{PyRuntime} `{S3Client}
    (parameters : pydict) (action_group function_name : pyval)
    (bucket key : str) (file_content : bytes) (e : exn) :
  dict_get parameters (py "s3_bucket") VNone = VStr bucket -> bucket <> [] ->
  dict_get parameters (py "s3_key") VNone = VStr key -> key <> [] ->
  get_object (VStr bucket) (VStr key) = Ok file_content ->
  decoded key file_content = Raise e ->
  TextProcessor.process_text parameters action_group function_name
  = FunctionCall.create_error_response action_group function_name
      (py "Text processing failed") (VStr (exn_str e)).
Proof.
  intros Hbucket Hb Hkey Hk Hfetch Hdecoded.
  unfold TextProcessor.process_text.
  rewrite (process_text_try_fetched parameters _ _ bucket key file_content)
    by assumption.
  cbv zeta. rewrite Hdecoded. reflexivity.
Qed.

Lemma undecodable_object_fails_witness :
  @TextProcessor.process_text Example.runtime docs_with_broken_json
    {[ KStr (py "s3_bucket") := VStr (py "docs");
       KStr (py "s3_key") := VStr (py "data.json") ]}
    (VStr []) (VStr (py "process_text"))
  = @FunctionCall.create_error_response Example.runtime
      (VStr []) (VStr (py "process_text")) (py "Text processing failed")
      (VStr (py "Expecting value: line 1 column 1 (char 0)")).
Proof.
  apply (@undecodable_object_fails Example.runtime docs_with_broken_json _ _ _
           (py "docs") (py "data.json") [x48; x69]%byte
           (Exn "JSONDecodeError" (py "Expecting value: line 1 column 1 (char 0)")));
    try reflexivity; discriminate.
Defined.

(** ** text_processor.py: cleaning *)

Section CleanFacts.
Context `{PyRuntime}.

(** The lines the cleaning keeps: stripped, none empty, none with a
    newline. *)
Lemma clean_lines (text : str) :
  Forall (fun line =>
            (line <> [] /\ strip line = line)
            /\ Forall (fun c => c <> 10%N) line)
         (List.filter nonempty (strip <$> split 10%N (strip text))).
Proof. apply stripped_fragments. Qed.

Lemma clean_text (key : str) (file_content : bytes) (text : str) :
  (TextProcessor.process (py "clean") key file_content text).1
  = join newline (List.filter nonempty (strip <$> split 10%N (strip text))).
Proof. reflexivity. Qed.

End CleanFacts.

(** X17: cleaning is idempotent: the cleaned text of a cleaned text is
    that text. *)
Theorem cleaning_is_idempotent `{PyRuntime} (key key' : str)
    (file_content file_content' : bytes) (text : str) :
  let cleaned := (TextProcessor.process (py "clean") key file_content text).1 in
  (TextProcessor.process (py "clean") key' file_content' cleaned).1 = cleaned.
Proof.
  cbv zeta. rewrite !clean_text.
  pose proof (clean_lines text) as Hlines.
  set (lines := List.filter nonempty (strip <$> split 10%N (strip text))) in *.
  destruct (decide (lines = [])) as [->|Hne]; [reflexivity|].
  rewrite strip_join by (eapply Forall_impl; [exact Hlines|]; intros ? [? ?]; assumption).
  unfold newline. rewrite split_join;
    [|exact Hne|eapply Forall_impl; [exact Hlines|]; intros ? [? ?]; assumption].
  f_equal. clear Hne.
  induction Hlines as [|line lines' [[Hline Hstrip] _] _ IH]; [reflexivity|].
  cbn [fmap list_fmap List.filter]. rewrite Hstrip.
  destruct line; [congruence|]. cbn [nonempty]. f_equal. exact IH.
Qed.

(** X18: the cleaned text is never longer than the text, so that
    [cleaned_character_count <= original_character_count]; it has no white
    space at either end, and unless it is empty none of its lines is empty
    or has white space at either end. *)
Theorem cleaned_text_is_tidy `{PyRuntime} (key : str) (file_content : bytes)
    (text : str) :
  let cleaned := (TextProcessor.process (py "clean") key file_content text).1 in
  len cleaned <= len text
  /\ strip cleaned = cleaned
  /\ (cleaned = []
      \/ Forall (fun line => line <> [] /\ strip line = line)
                (split 10%N cleaned))
  /\ exists file_size file_type,
       (TextProcessor.process (py "clean") key file_content text).2
       = VDict [(py "file_size", file_size);
                (py "original_character_count", VInt (len text));
                (py "cleaned_character_count", VInt (len cleaned));
                (py "file_type", file_type)].
Proof.
  cbv zeta. rewrite !clean_text.
  pose proof (clean_lines text) as Hlines.
  split; [|split; [|split]].
  - pose proof (padded_length_stripped newline (split 10%N (strip text))) as Hle.
    pose proof (len_strip text) as Hstrip.
    rewrite <- (join_split 10%N (strip text)) in Hstrip at 1.
    fold newline in Hstrip.
    rewrite len_join in Hstrip by apply split_nonempty.
    destruct (List.filter nonempty (strip <$> split 10%N (strip text)))
      as [|line lines] eqn:Hfiltered.
    + apply len_nonneg.
    + rewrite len_join by discriminate. lia.
  - apply strip_join. eapply Forall_impl; [exact Hlines|]. intros ? [? ?]. assumption.
  - destruct (List.filter nonempty (strip <$> split 10%N (strip text)))
      as [|line lines] eqn:Hfiltered; [by left|].
    right. unfold newline. rewrite split_join;
      [|discriminate|eapply Forall_impl; [exact Hlines|]; intros ? [? ?]; assumption].
    eapply Forall_impl; [exact Hlines|]. intros ? [? ?]. assumption.
  - eexists _, _. reflexivity.
Qed.

(** ** text_processor.py: the file type *)

(** X19: the [file_type] of the metadata is what follows the last period
    of the key, in lower case; for a key without a period it is the whole
    key. *)
Theorem file_type_is_the_last_extension `{PyRuntime} (stem extension : str) :
  Forall (fun c => c <> dot) extension ->
  TextProcessor.file_type (stem ++ dot :: extension) = VStr (lower extension)
  /\ TextProcessor.file_type extension = VStr (lower extension).
Proof.
  intros Hextension. unfold TextProcessor.file_type. split.
  - destruct (split_last dot stem extension Hextension)
      as (fragment & fragments & ->).
    by rewrite last_last.
  - by rewrite split_without by exact Hextension.
Qed.

Lemma file_type_is_the_last_extension_witness :
  @TextProcessor.file_type Example.runtime (py "reports/2024.Final.TXT")
  = VStr (py "txt")
  /\ @TextProcessor.file_type Example.runtime (py "README") = VStr (py "readme").
Proof.
  split.
  - apply (@file_type_is_the_last_extension Example.runtime
             (py "reports/2024.Final") (py "TXT")).
    apply (bool_decide_unpack _). vm_compute. exact I.
  - apply (@file_type_is_the_last_extension Example.runtime [] (py "README")).
    apply (bool_decide_unpack _). vm_compute. exact I.
Defined.

(** ** order-lookup/app.py *)

Section OrderLookupFacts.
Context `{PyRuntime}.

(** The handler reads the event through its [parameters] only. *)
Lemma order_handler_parameters (event : list (str * pyval)) (params : list pyval) :
  field event "parameters" (VList []) = VList params ->
  OrderLookup.handler_try (VDict event)
  = let* order_id := OrderLookup.find_order_id params in
    if negb (truthy order_id) then
      Ok (OrderLookup.response 400
            (VDict [(py "error", VStr (py "Missing required parameter: order_id"))]))
    else
      let* order_data := OrderLookup.lookup_order order_id in
      Ok (OrderLookup.response 200
            (VDict [(py "order", order_data);
                    (py "message",
                     VStr (py "Successfully retrieved order " ++ str_of order_id))])).
Proof.
  intros Hparameters. unfold OrderLookup.handler_try, field in *.
  cbn [get bind]. rewrite Hparameters. reflexivity.
Qed.

(** The loop breaks at an entry named [order_id]. *)
Lemma find_order_id_break (before after : list pyval) (param : list (str * pyval)) :
  lookup_item (py "name") param = Some (VStr (py "order_id")) ->
  OrderLookup.find_order_id (before ++ VDict param :: after)
  = OrderLookup.find_order_id (before ++ [VDict param]).
Proof.
  intros Hname. induction before as [|entry before IH].
  - cbn [app OrderLookup.find_order_id get bind]. rewrite Hname.
    reflexivity.
  - cbn [app OrderLookup.find_order_id]. rewrite IH. reflexivity.
Qed.

(** A key that is not a string is not in the table. *)
Lemma mock_orders_strings (key : pykey) :
  (forall s, key <> KStr s) -> OrderLookup.mock_orders !! key = None.
Proof.
  intros Hkey. unfold OrderLookup.mock_orders.
  rewrite !lookup_insert_ne by (intros Heq; symmetry in Heq; exact (Hkey _ Heq)).
  apply lookup_empty.
Qed.

(** Every record of the table carries its key under [order_id]. *)
Lemma mock_orders_order_id (order_id : str) (order : pyval) :
  OrderLookup.mock_orders !! KStr order_id = Some order ->
  get order (py "order_id") VNone = Ok (VStr order_id).
Proof.
  unfold OrderLookup.mock_orders. intros Horder.
  destruct (decide (order_id = py "67890")) as [->|H2].
  - rewrite lookup_insert_eq in Horder. injection Horder as <-. reflexivity.
  - rewrite lookup_insert_ne in Horder by congruence.
    destruct (decide (order_id = py "12345")) as [->|H1].
    + rewrite lookup_insert_eq in Horder. injection Horder as <-. reflexivity.
    + rewrite lookup_insert_ne in Horder by congruence.
      rewrite lookup_empty in Horder. discriminate.
Qed.

End OrderLookupFacts.

(** X20: the parameter loop of the order lookup stops at the first entry
    named [order_id]: what follows it in [parameters] is never read, so two
    events that agree up to that entry get the same response, whatever
    comes after it, entries that are not dictionaries included. *)
Theorem entries_after_order_id_are_not_read `{PyRuntime}
    (event1 event2 : list (str * pyval)) (before after1 after2 : list pyval)
    (param : list (str * pyval)) :
  lookup_item (py "name") param = Some (VStr (py "order_id")) ->
  field event1 "parameters" (VList []) = VList (before ++ VDict param :: after1) ->
  field event2 "parameters" (VList []) = VList (before ++ VDict param :: after2) ->
  OrderLookup.handler (VDict event1) = OrderLookup.handler (VDict event2).
Proof.
  intros Hname H1 H2. unfold OrderLookup.handler.
  rewrite (order_handler_parameters event1 _ H1).
  rewrite (order_handler_parameters event2 _ H2).
  rewrite (find_order_id_break before after1 param Hname).
  rewrite (find_order_id_break before after2 param Hname).
  reflexivity.
Qed.

Lemma entries_after_order_id_are_not_read_witness :
  @OrderLookup.handler Example.runtime
    (Example.event "orders" "lookup"
       [Example.parameter "order_id" "12345"; VInt 7;
        Example.parameter "order_id" "67890"])
  = @OrderLookup.handler Example.runtime
      (Example.event "orders" "lookup" [Example.parameter "order_id" "12345"]).
Proof.
  apply (@entries_after_order_id_are_not_read Example.runtime
           [(py "messageVersion", VStr (py "1.0"));
            (py "actionGroup", VStr (py "orders"));
            (py "function", VStr (py "lookup"));
            (py "parameters",
             VList [Example.parameter "order_id" "12345"; VInt 7;
                    Example.parameter "order_id" "67890"])]
           [(py "messageVersion", VStr (py "1.0"));
            (py "actionGroup", VStr (py "orders"));
            (py "function", VStr (py "lookup"));
            (py "parameters", VList [Example.parameter "order_id" "12345"])]
           [] [VInt 7; Example.parameter "order_id" "67890"] []
           [(py "name", VStr (py "order_id"));
            (py "type", VStr (py "string"));
            (py "value", VStr (py "12345"))]);
    reflexivity.
Defined.

(** X21: every non-empty string sent as [order_id] is answered with
    status 200 and an order object that carries that very string under
    [order_id], whether the order is one of the table or the [not_found]
    placeholder; the message names the same id. *)
Theorem string_order_id_is_echoed `{PyRuntime}
    (event : list (str * pyval)) (params : list pyval)
    (entries : list (str * pyval)) (order_id : str) :
  field event "parameters" (VList []) = VList params ->
  mapM named_value params = Some entries ->
  first_value (py "order_id") entries = Some (VStr order_id) ->
  order_id <> [] ->
  exists order,
    OrderLookup.lookup_order (VStr order_id) = Ok order
    /\ get order (py "order_id") VNone = Ok (VStr order_id)
    /\ OrderLookup.handler (VDict event)
       = OrderLookup.response 200
           (VDict [(py "order", order);
                   (py "message",
                    VStr (py "Successfully retrieved order " ++ order_id))]).
Proof.
  intros Hparameters Hnamed Hfirst Hnonempty.
  exists (from_option id (OrderLookup.not_found (VStr order_id))
            (OrderLookup.mock_orders !! KStr order_id)).
  split; [reflexivity|]. split.
  - destruct (OrderLookup.mock_orders !! KStr order_id) as [order|] eqn:Horder.
    + exact (mock_orders_order_id order_id order Horder).
    + reflexivity.
  - unfold OrderLookup.handler.
    rewrite (order_handler_named event params entries Hparameters Hnamed).
    rewrite Hfirst. cbv zeta. cbn [from_option id truthy].
    destruct order_id as [|c rest]; [congruence|].
    cbn [nonempty negb]. unfold OrderLookup.lookup_order. cbn [key_of bind].
    rewrite str_of_str. reflexivity.
Qed.

Lemma string_order_id_is_echoed_witness :
  exists order,
    OrderLookup.lookup_order (VStr (py "67890")) = Ok order
    /\ get order (py "order_id") VNone = Ok (VStr (py "67890"))
    /\ @OrderLookup.handler Example.runtime
         (Example.event "orders" "lookup" [Example.parameter "order_id" "67890"])
       = @OrderLookup.response Example.runtime 200
           (VDict [(py "order", order);
                   (py "message",
                    VStr (py "Successfully retrieved order 67890"))]).
Proof.
  apply (@string_order_id_is_echoed Example.runtime
           [(py "messageVersion", VStr (py "1.0"));
            (py "actionGroup", VStr (py "orders"));
            (py "function", VStr (py "lookup"));
            (py "parameters", VList [Example.parameter "order_id" "67890"])]
           [Example.parameter "order_id" "67890"]
           [(py "order_id", VStr (py "67890"))] (py "67890")
           eq_refl eq_refl eq_refl).
  discriminate.
Defined.

(** X22: an [order_id] that is a non-empty list or dictionary cannot be
    hashed by the table lookup; the exception is caught and the handler
    answers 500 with "Internal server error", without the exception's
    text. *)
Theorem unhashable_order_id_is_a_server_error `{PyRuntime}
    (event : list (str * pyval)) (params : list pyval)
    (entries : list (str * pyval)) (order_id : pyval) :
  field event "parameters" (VList []) = VList params ->
  mapM named_value params = Some entries ->
  first_value (py "order_id") entries = Some order_id ->
  truthy order_id = true ->
  (exists l, order_id = VList l) \/ (exists d, order_id = VDict d) ->
  OrderLookup.handler (VDict event)
  = OrderLookup.response 500
      (VDict [(py "error", VStr (py "Internal server error"))]).
Proof.
  intros Hparameters Hnamed Hfirst Htruthy Hkind.
  unfold OrderLookup.handler.
  rewrite (order_handler_named event params entries Hparameters Hnamed).
  rewrite Hfirst. cbv zeta. cbn [from_option id]. rewrite Htruthy.
  cbn [negb]. destruct Hkind as [[l ->]|[d ->]]; reflexivity.
Qed.

Lemma unhashable_order_id_is_a_server_error_witness :
  @OrderLookup.handler Example.runtime
    (VDict [(py "parameters",
             VList [VDict [(py "name", VStr (py "order_id"));
                           (py "value", VList [VStr (py "12345")])]])])
  = @OrderLookup.response Example.runtime 500
      (VDict [(py "error", VStr (py "Internal server error"))]).
Proof.
  apply (@unhashable_order_id_is_a_server_error Example.runtime
           [(py "parameters",
             VList [VDict [(py "name", VStr (py "order_id"));
                           (py "value", VList [VStr (py "12345")])]])]
           [VDict [(py "name", VStr (py "order_id"));
                   (py "value", VList [VStr (py "12345")])]]
           [(py "order_id", VList [VStr (py "12345")])]
           (VList [VStr (py "12345")]) eq_refl eq_refl eq_refl eq_refl).
  left. eexists. reflexivity.
Defined.

(** X23: the table is keyed by strings: an [order_id] sent as a number
    or as [true] finds no order, even the number 12345, and is answered
    with status 200 and the [not_found] placeholder, which carries the
    value as it was sent. *)
Theorem numeric_order_id_is_not_found `{PyRuntime}
    (event : list (str * pyval)) (params : list pyval)
    (entries : list (str * pyval)) (order_id : pyval) :
  field event "parameters" (VList []) = VList params ->
  mapM named_value params = Some entries ->
  first_value (py "order_id") entries = Some order_id ->
  truthy order_id = true ->
  (exists b, order_id = VBool b) \/ (exists z, order_id = VInt z)
  \/ (exists q, order_id = VFloat q) ->
  OrderLookup.handler (VDict event)
  = OrderLookup.response 200
      (VDict [(py "order",
               VDict [(py "order_id", order_id);
                      (py "status", VStr (py "not_found"));
                      (py "message", VStr (py "Order not found in system"))]);
              (py "message",
               VStr (py "Successfully retrieved order " ++ str_of order_id))]).
Proof.
  intros Hparameters Hnamed Hfirst Htruthy Hkind.
  unfold OrderLookup.handler.
  rewrite (order_handler_named event params entries Hparameters Hnamed).
  rewrite Hfirst. cbv zeta. cbn [from_option id]. rewrite Htruthy.
  cbn [negb]. unfold OrderLookup.lookup_order.
  destruct Hkind as [[b ->]|[[z ->]|[q ->]]]; cbn [key_of bind];
    rewrite mock_orders_strings by discriminate; reflexivity.
Qed.

Lemma numeric_order_id_is_not_found_witness :
  @OrderLookup.handler Example.runtime
    (VDict [(py "parameters",
             VList [VDict [(py "name", VStr (py "order_id"));
                           (py "value", VInt 12345)]])])
  = @OrderLookup.response Example.runtime 200
      (VDict [(py "order",
               VDict [(py "order_id", VInt 12345);
                      (py "status", VStr (py "not_found"));
                      (py "message", VStr (py "Order not found in system"))]);
              (py "message", VStr (py "Successfully retrieved order 12345"))]).
Proof.
  apply (@numeric_order_id_is_not_found Example.runtime
           [(py "parameters",
             VList [VDict [(py "name", VStr (py "order_id"));
                           (py "value", VInt 12345)]])]
           [VDict [(py "name", VStr (py "order_id"));
                   (py "value", VInt 12345)]]
           [(py "order_id", VInt 12345)]
           (VInt 12345) eq_refl eq_refl eq_refl eq_refl).
  right. left. eexists. reflexivity.
Defined.

(** ** product-search-api/app.py: the search *)

Lemma filter_sublist {A} (f : A -> bool) (l : list A) :
  sublist (List.filter f l) l.
Proof.
  induction l as [|a l IH]; [constructor|].
  cbn [List.filter]. destruct (f a); by constructor.
Qed.

Lemma len_filter_le {A} (f : A -> bool) (l : list A) :
  len (List.filter f l) <= len l.
Proof. unfold len. pose proof (List.filter_length_le f l). lia. Qed.

Lemma len_slice_to {A} (n : Z) (l : list A) :
  len (slice_to n l)
  = if 0 <=? n then Z.min n (len l) else Z.max 0 (len l + n).
Proof.
  unfold slice_to, len. destruct (Z.leb_spec 0 n); rewrite length_take; lia.
Qed.

Lemma contains_empty (hay : str) : contains hay [] = true.
Proof. destruct hay; reflexivity. Qed.

Section SearchFacts.
Context `{PyRuntime}.
Import ProductSearch.

Lemma lower_empty : lower [] = [].
Proof. rewrite lower_ascii; reflexivity. Qed.

Lemma search_products_matches (request : ProductSearchRequest.t) :
  search_products request
  = {| ProductSearchResponse.products :=
         match ProductSearchRequest.limit request with
         | Some n => slice_to n (matches request)
         | None => matches request
         end;
       ProductSearchResponse.total_count := len (matches request);
       ProductSearchResponse.query := ProductSearchRequest.query request |}.
Proof. reflexivity. Qed.

End SearchFacts.

Section PassesFacts.
Context `{PyRuntime}.

(** The loop appends a product exactly when it passes. *)
Lemma keeps_passes (request : ProductSearchRequest.t) (product : Product.t) :
  ProductSearch.keeps request product = true <-> passes request product.
Proof.
  unfold ProductSearch.keeps, passes.
  set (query := lower (ProductSearchRequest.query request)).
  assert (negb (contains (lower (Product.name product)) query)
          && negb (contains (lower (Product.description product)) query) = false
          <-> contains (lower (Product.name product)) query = true
              \/ contains (lower (Product.description product)) query = true)
    as Htext.
  { destruct (contains (lower (Product.name product)) query),
      (contains (lower (Product.description product)) query); cbn; intuition. }
  assert (ProductSearch.truthy_str (ProductSearchRequest.category request)
          && negb (bool_decide
                     (lower (Product.category product)
                      = lower (default [] (ProductSearchRequest.category request))))
          = false
          <-> forall category,
                ProductSearchRequest.category request = Some category ->
                category <> [] ->
                lower (Product.category product) = lower category)
    as Hcategory.
  { destruct (ProductSearchRequest.category request) as [[|c category]|];
      cbn [ProductSearch.truthy_str nonempty andb default from_option id].
    - split; [intros _ ? [= <-]; congruence|reflexivity].
    - case_bool_decide as Heq; cbn [negb]; split.
      + intros _ ? [= <-] _. exact Heq.
      + reflexivity.
      + discriminate.
      + intros Hall. exfalso. apply Heq, Hall; [reflexivity|discriminate].
    - split; [intros _ ? [=]|reflexivity]. }
  assert (forall (bound : option float) (test : float -> bool),
             ProductSearch.truthy_float bound && test (default 0%float bound) = false
             <-> forall m, bound = Some m -> PrimFloat.eqb m 0%float = false ->
                           test m = false) as Hbound.
  { intros [m|] test; cbn [ProductSearch.truthy_float default from_option id andb].
    - destruct (PrimFloat.eqb m 0%float) eqn:Hzero; cbn [negb andb]; split.
      + intros _ ? [= <-]. congruence.
      + reflexivity.
      + intros Htest ? [= <-] _. exact Htest.
      + intros Hall. apply Hall; [reflexivity|exact Hzero].
    - split; [intros _ ? [=]|reflexivity]. }
  pose proof (Hbound (ProductSearchRequest.min_price request)
                (fun m => PrimFloat.ltb (Product.price product) m)) as Hmin.
  pose proof (Hbound (ProductSearchRequest.max_price request)
                (fun m => PrimFloat.ltb m (Product.price product))) as Hmax.
  cbv beta in Hmin, Hmax.
  rewrite <- Htext, <- Hcategory, <- Hmin, <- Hmax.
  repeat match goal with
         | |- context [if ?b then _ else _] => destruct b
         end; intuition congruence.
Qed.

End PassesFacts.

(** X24: the search returns products of the catalog only, in catalog
    order, each of which passes the text test and the filters of the
    request. [total_count] is the number of products of the catalog that
    pass, counted before the limit is applied: the products returned are
    the first of them, all of them when no limit is sent, so
    [total_count] is at least the number of products returned and at most
    5. [query] is echoed as it was sent. *)
Theorem search_returns_matching_products `{PyRuntime}
    (request : ProductSearchRequest.t) :
  let response := ProductSearch.search_products request in
  sublist (ProductSearchResponse.products response) ProductSearch.MOCK_PRODUCTS
  /\ (forall product,
         In product (ProductSearchResponse.products response) ->
         passes request product)
  /\ (exists matching,
         sublist matching ProductSearch.MOCK_PRODUCTS
         /\ (forall product,
                In product ProductSearch.MOCK_PRODUCTS ->
                In product matching <-> passes request product)
         /\ ProductSearchResponse.total_count response = len matching
         /\ (exists k, ProductSearchResponse.products response = take k matching)
         /\ (ProductSearchRequest.limit request = None ->
             ProductSearchResponse.products response = matching))
  /\ len (ProductSearchResponse.products response)
     <= ProductSearchResponse.total_count response <= 5
  /\ ProductSearchResponse.query response = ProductSearchRequest.query request.
Proof.
  cbv zeta. rewrite search_products_matches.
  cbn [ProductSearchResponse.products ProductSearchResponse.total_count
       ProductSearchResponse.query].
  set (limited := match ProductSearchRequest.limit request with
                  | Some n => slice_to n (matches request)
                  | None => matches request
                  end).
  assert (exists k, limited = take k (matches request)) as [k Hk].
  { subst limited. destruct (ProductSearchRequest.limit request) as [n|].
    - unfold slice_to. destruct (0 <=? n); eexists; reflexivity.
    - exists (length (matches request)). symmetry. apply firstn_all. }
  assert (sublist limited (matches request)) as Hlimited
    by (rewrite Hk; apply sublist_take).
  assert (forall product,
             In product (matches request)
             <-> In product ProductSearch.MOCK_PRODUCTS /\ passes request product)
    as Hmatches.
  { intros product. unfold matches.
    rewrite List.filter_In, keeps_passes. reflexivity. }
  split; [|split; [|split; [|split]]].
  - etransitivity; [exact Hlimited|]. apply filter_sublist.
  - intros product Hin. apply Hmatches.
    apply list_elem_of_In. eapply elem_of_sublist; [|exact Hlimited].
    apply list_elem_of_In, Hin.
  - exists (matches request). split; [apply filter_sublist|].
    split; [|split; [reflexivity|split]].
    + intros product Hcatalog. rewrite Hmatches. tauto.
    + by exists k.
    + intros Hnone. subst limited. by rewrite Hnone.
  - split.
    + apply sublist_length in Hlimited. unfold len. lia.
    + exact (len_filter_le (ProductSearch.keeps request)
               ProductSearch.MOCK_PRODUCTS).
  - reflexivity.
Qed.

(** X25: [limit] cuts the list of products and nothing else:
    [total_count] is the same under every limit, the number of all
    matches. A limit [n >= 0] keeps the first [n] matches (all of them when
    there are fewer, none for 0); without a limit all matches are
    returned; a negative limit raises no error but drops that many matches
    from the end. *)
Theorem limit_cuts_products_only `{PyRuntime}
    (request : ProductSearchRequest.t) (limit : option Z) :
  let unlimited := ProductSearch.search_products (with_limit request None) in
  let response := ProductSearch.search_products (with_limit request limit) in
  ProductSearchResponse.total_count response
  = len (ProductSearchResponse.products unlimited)
  /\ (exists k,
        ProductSearchResponse.products response
        = take k (ProductSearchResponse.products unlimited))
  /\ len (ProductSearchResponse.products response)
     = match limit with
       | None => ProductSearchResponse.total_count response
       | Some n =>
           if 0 <=? n
           then Z.min n (ProductSearchResponse.total_count response)
           else Z.max 0 (ProductSearchResponse.total_count response + n)
       end.
Proof.
  cbv zeta. rewrite !search_products_matches.
  cbn [ProductSearchResponse.products ProductSearchResponse.total_count
       ProductSearchRequest.limit with_limit].
  change (matches (with_limit request limit)) with (matches request).
  change (matches (with_limit request None)) with (matches request).
  split; [reflexivity|]. split.
  - destruct limit as [n|].
    + unfold slice_to. destruct (0 <=? n); eexists; reflexivity.
    + exists (length (matches request)). symmetry. apply firstn_all.
  - destruct limit as [n|]; [apply len_slice_to|reflexivity].
Qed.

(** X26: the text test and the category filter compare lower-cased
    strings: two requests whose ASCII queries and categories differ in the
    case of letters only, and that agree on the price bounds and the
    limit, get the same products and the same [total_count]. *)
Theorem search_ignores_ascii_case `{PyRuntime}
    (request1 request2 : ProductSearchRequest.t) :
  same_up_to_ascii_case (ProductSearchRequest.query request1)
                        (ProductSearchRequest.query request2) ->
  option_Forall2 same_up_to_ascii_case
                 (ProductSearchRequest.category request1)
                 (ProductSearchRequest.category request2) ->
  ProductSearchRequest.min_price request1 = ProductSearchRequest.min_price request2 ->
  ProductSearchRequest.max_price request1 = ProductSearchRequest.max_price request2 ->
  ProductSearchRequest.limit request1 = ProductSearchRequest.limit request2 ->
  ProductSearchResponse.products (ProductSearch.search_products request1)
  = ProductSearchResponse.products (ProductSearch.search_products request2)
  /\ ProductSearchResponse.total_count (ProductSearch.search_products request1)
     = ProductSearchResponse.total_count (ProductSearch.search_products request2).
Proof.
  intros (Hq1 & Hq2 & Hquery) Hcategory Hmin Hmax Hlimit.
  rewrite !search_products_matches.
  cbn [ProductSearchResponse.products ProductSearchResponse.total_count].
  rewrite Hlimit.
  assert (matches request1 = matches request2) as ->; [|split; reflexivity].
  unfold matches. apply List.filter_ext. intros product.
  unfold ProductSearch.keeps. rewrite Hmin, Hmax.
  rewrite (lower_ascii _ Hq1), (lower_ascii _ Hq2), Hquery.
  destruct Hcategory as [category1 category2 (Hc1 & Hc2 & Hcategory)|];
    [|reflexivity].
  cbn [default from_option id ProductSearch.truthy_str].
  rewrite (lower_ascii _ Hc1), (lower_ascii _ Hc2), Hcategory.
  assert (nonempty category1 = nonempty category2) as ->; [|reflexivity].
  apply (f_equal length) in Hcategory. rewrite !length_fmap in Hcategory.
  destruct category1, category2; try reflexivity; discriminate.
Qed.

Lemma search_ignores_ascii_case_witness :
  ProductSearchResponse.products
    (@ProductSearch.search_products Example.runtime
       {| ProductSearchRequest.query := py "PHONE";
          ProductSearchRequest.category := Some (py "electronics");
          ProductSearchRequest.min_price := None;
          ProductSearchRequest.max_price := None;
          ProductSearchRequest.limit := Some 10 |})
  = ProductSearchResponse.products
      (@ProductSearch.search_products Example.runtime
         {| ProductSearchRequest.query := py "Phone";
            ProductSearchRequest.category := Some (py "ELECTRONICS");
            ProductSearchRequest.min_price := None;
            ProductSearchRequest.max_price := None;
            ProductSearchRequest.limit := Some 10 |}).
Proof.
  apply (@search_ignores_ascii_case Example.runtime
           {| ProductSearchRequest.query := py "PHONE";
              ProductSearchRequest.category := Some (py "electronics");
              ProductSearchRequest.min_price := None;
              ProductSearchRequest.max_price := None;
              ProductSearchRequest.limit := Some 10 |}
           {| ProductSearchRequest.query := py "Phone";
              ProductSearchRequest.category := Some (py "ELECTRONICS");
              ProductSearchRequest.min_price := None;
              ProductSearchRequest.max_price := None;
              ProductSearchRequest.limit := Some 10 |});
    try reflexivity.
  - repeat split; reflexivity.
  - constructor. repeat split; reflexivity.
Defined.

(** X27: the empty query and the empty category exclude nothing. A
    product kept under some query is kept under the empty query with the
    same filters, and a product kept under some category is kept when the
    category is the empty string, which is read as an absent filter; so
    [total_count] can only grow. *)
Theorem empty_query_and_category_are_widest `{PyRuntime}
    (request : ProductSearchRequest.t) :
  (forall product,
      ProductSearch.keeps request product = true ->
      ProductSearch.keeps (with_query request []) product = true
      /\ ProductSearch.keeps (with_category request (Some [])) product = true)
  /\ ProductSearch.search_products (with_category request (Some []))
     = ProductSearch.search_products (with_category request None)
  /\ ProductSearchResponse.total_count (ProductSearch.search_products request)
     <= ProductSearchResponse.total_count
          (ProductSearch.search_products (with_query request []))
  /\ ProductSearchResponse.total_count (ProductSearch.search_products request)
     <= ProductSearchResponse.total_count
          (ProductSearch.search_products (with_category request (Some []))).
Proof.
  assert (forall product,
      ProductSearch.keeps request product = true ->
      ProductSearch.keeps (with_query request []) product = true
      /\ ProductSearch.keeps (with_category request (Some [])) product = true)
    as Hkeeps.
  { intros product. unfold ProductSearch.keeps.
    cbn [ProductSearchRequest.query ProductSearchRequest.category
         ProductSearchRequest.min_price ProductSearchRequest.max_price
         with_query with_category ProductSearch.truthy_str nonempty andb].
    rewrite lower_empty, !contains_empty. cbn [negb andb].
    repeat match goal with
           | |- context [if ?b then _ else _] => destruct b eqn:?
           end; try discriminate; auto. }
  assert (forall request',
      (forall product,
          ProductSearch.keeps request product = true ->
          ProductSearch.keeps request' product = true) ->
      len (matches request) <= len (matches request')) as Hcount.
  { intros request' Himpl. unfold matches, len.
    induction ProductSearch.MOCK_PRODUCTS as [|product products IH]; [reflexivity|].
    cbn [List.filter].
    destruct (ProductSearch.keeps request product) eqn:Hkept.
    - rewrite (Himpl product Hkept). cbn [length]. lia.
    - destruct (ProductSearch.keeps request' product); cbn [length]; lia. }
  split; [exact Hkeeps|]. split; [reflexivity|]. split.
  - rewrite !search_products_matches.
    cbn [ProductSearchResponse.total_count].
    apply Hcount. intros product Hkept. apply Hkeeps, Hkept.
  - rewrite !search_products_matches.
    cbn [ProductSearchResponse.total_count].
    apply Hcount. intros product Hkept. apply Hkeeps, Hkept.
Qed.

(** A float is not less than itself (NaN included). *)
Lemma ltb_irrefl (x : float) : PrimFloat.ltb x x = false.
Proof.
  rewrite ltb_spec. unfold SFltb.
  destruct (Prim2SF x) as [s|s| |s m e]; cbn [SFcompare];
    try (destruct s; reflexivity); try reflexivity.
  destruct s; rewrite Z.compare_refl, ?Pos.compare_refl; reflexivity.
Qed.

(** X28: the price bounds are inclusive: a product whose price equals
    [min_price] and [max_price] passes both price tests, so the search
    with the empty query, no category, no limit and both bounds at the
    price of a product of the catalog returns that product. *)
Theorem price_bounds_are_inclusive `{PyRuntime} (product : Product.t) :
  let request :=
    {| ProductSearchRequest.query := [];
       ProductSearchRequest.category := None;
       ProductSearchRequest.min_price := Some (Product.price product);
       ProductSearchRequest.max_price := Some (Product.price product);
       ProductSearchRequest.limit := None |} in
  ProductSearch.keeps request product = true
  /\ (In product ProductSearch.MOCK_PRODUCTS ->
      In product
         (ProductSearchResponse.products (ProductSearch.search_products request))).
Proof.
  cbv zeta.
  assert (ProductSearch.keeps
            {| ProductSearchRequest.query := [];
               ProductSearchRequest.category := None;
               ProductSearchRequest.min_price := Some (Product.price product);
               ProductSearchRequest.max_price := Some (Product.price product);
               ProductSearchRequest.limit := None |} product = true) as Hkept.
  { unfold ProductSearch.keeps.
    cbn [ProductSearchRequest.query ProductSearchRequest.category
         ProductSearchRequest.min_price ProductSearchRequest.max_price
         ProductSearch.truthy_str andb default from_option id].
    rewrite lower_empty, !contains_empty, ltb_irrefl, !andb_false_r.
    reflexivity. }
  split; [exact Hkept|]. intros Hin.
  rewrite search_products_matches.
  cbn [ProductSearchResponse.products ProductSearchRequest.limit].
  unfold matches. apply List.filter_In. split; assumption.
Qed.
